(** * LLM Expert Helper: a shallow embedding of [app.py]

    The program is a Streamlit form that forwards a question, a persona
    tag and a sampling temperature to a chat-completion model.  Its logic
    is [get_api_key], [ask_expert] and the submission handler at the end
    of the script.

    Python values are modelled as follows.
    - A [str] is the list of its Unicode code points ([list N]); literals
      of the source are written as UTF-8 text and decoded by [utf8].
    - A [float] is a binary64 number ([PrimFloat.float]); the program only
      passes it along.
    - [os.environ] is a finite map from names to strings; [st.secrets] is
      either such a map (the entries of [secrets.toml]) or missing.
    - Exceptions carry their class (a chain of base classes) and the text
      [str(e)] gives for them.
    - Everything the script does to the outside (secret and environment
      lookups, the remote call, the Streamlit widgets it draws) is
      recorded, in order, in a trace of events.

    Library code is not part of the script and is taken as follows.
    - [st.secrets.get] raises [StreamlitSecretNotFoundError] when there is
      no secrets file; when there is one, reading it copies its entries
      into [os.environ], over the variables of the same names, and the
      lookup gives the entry or [None].
    - [os.getenv] is a lookup in [os.environ] as it is at that moment.
    - The [ChatOpenAI] constructor only records its arguments; [invoke] is
      the remote model, an arbitrary function from the request to a reply
      or an exception.
    - The Streamlit drawing calls do not raise. *)

From Stdlib Require Import String Ascii NArith PrimFloat.
From stdpp Require Import gmap list.

Local Open Scope N_scope.

(** ** Python strings *)

Abbreviation pystr := (list N).

Fixpoint bytes_of_string (s : string) : list N :=
  match s with
  | EmptyString => []
  | String a r => N_of_ascii a :: bytes_of_string r
  end.

(** UTF-8 decoding of well-formed text (one to four bytes per code point). *)
Fixpoint utf8_decode (fuel : nat) (bs : list N) : pystr :=
  match fuel with
  | O => []
  | S fuel' =>
    match bs with
    | [] => []
    | b0 :: r0 =>
      if b0 <? 0x80 then b0 :: utf8_decode fuel' r0
      else if b0 <? 0xE0 then
        match r0 with
        | b1 :: r1 => ((b0 - 0xC0) * 64 + (b1 - 0x80)) :: utf8_decode fuel' r1
        | _ => []
        end
      else if b0 <? 0xF0 then
        match r0 with
        | b1 :: b2 :: r2 =>
          ((b0 - 0xE0) * 4096 + (b1 - 0x80) * 64 + (b2 - 0x80))
            :: utf8_decode fuel' r2
        | _ => []
        end
      else
        match r0 with
        | b1 :: b2 :: b3 :: r3 =>
          ((b0 - 0xF0) * 262144 + (b1 - 0x80) * 4096 + (b2 - 0x80) * 64
           + (b3 - 0x80)) :: utf8_decode fuel' r3
        | _ => []
        end
    end
  end.

Definition utf8 (s : string) : pystr :=
  utf8_decode (String.length s) (bytes_of_string s).

(** [c.isspace()] for one code point: the characters [str.strip()]
    removes when it is called without an argument. *)
Definition py_isspace (c : N) : bool :=
  ((0x09 <=? c) && (c <=? 0x0D)) || ((0x1C <=? c) && (c <=? 0x20))
  || (c =? 0x85) || (c =? 0xA0) || (c =? 0x1680)
  || ((0x2000 <=? c) && (c <=? 0x200A))
  || (c =? 0x2028) || (c =? 0x2029) || (c =? 0x202F) || (c =? 0x205F)
  || (c =? 0x3000).

Fixpoint py_lstrip (s : pystr) : pystr :=
  match s with
  | [] => []
  | c :: r => if py_isspace c then py_lstrip r else s
  end.

Definition py_rstrip (s : pystr) : pystr := rev (py_lstrip (rev s)).

(** [s.strip()] *)
Definition py_strip (s : pystr) : pystr := py_rstrip (py_lstrip s).

(** Truth value of a [str]: false exactly for the empty string. *)
Definition str_truthy (s : pystr) : bool :=
  match s with [] => false | _ :: _ => true end.

(** Truth value of a [str | None]: false for [None] and for [""]. *)
Definition py_truthy (o : option pystr) : bool :=
  match o with
  | Some (_ :: _) => true
  | _ => false
  end.

(** [needle in hay] on strings. *)
Fixpoint py_startswith (hay prefix : pystr) : bool :=
  match prefix, hay with
  | [], _ => true
  | p :: ps, h :: hs => (p =? h) && py_startswith hs ps
  | _ :: _, [] => false
  end.

Fixpoint mentions (needle hay : pystr) : bool :=
  py_startswith hay needle ||
  match hay with
  | [] => false
  | _ :: hs => mentions needle hs
  end.

(** ** Values returned by the model client *)

(** A value is either a [str] or something else, of which only the text
    [str()] gives is kept. *)
Inductive pyval :=
  | VStr (s : pystr)
  | VOther (shown : pystr).

(** ** Exceptions *)

Inductive pyclass :=
  | BaseException
  | Subclass (name : pystr) (base : pyclass).

#[global] Instance pyclass_eq_dec : EqDecision pyclass.
Proof. solve_decision. Defined.

Definition PyException : pyclass := Subclass (utf8 "Exception") BaseException.
Definition RuntimeError : pyclass := Subclass (utf8 "RuntimeError") PyException.
Definition ValueError : pyclass := Subclass (utf8 "ValueError") PyException.
Definition LookupError : pyclass := Subclass (utf8 "LookupError") PyException.
Definition KeyError : pyclass := Subclass (utf8 "KeyError") LookupError.
Definition OSError : pyclass := Subclass (utf8 "OSError") PyException.
Definition FileNotFoundError : pyclass :=
  Subclass (utf8 "FileNotFoundError") OSError.

(** Streamlit's class for a missing secrets file.  It derives from
    [FileNotFoundError] (and from Streamlit's own error class, which adds
    no base the script tests for). *)
Definition StreamlitSecretNotFoundError : pyclass :=
  Subclass (utf8 "StreamlitSecretNotFoundError") FileNotFoundError.

(** [cls.__name__] *)
Definition class_name (c : pyclass) : pystr :=
  match c with
  | BaseException => utf8 "BaseException"
  | Subclass n _ => n
  end.

Fixpoint issubclass (c d : pyclass) : bool :=
  if decide (c = d) then true
  else match c with
       | BaseException => false
       | Subclass _ b => issubclass b d
       end.

(** An exception object: [type(e)] and [str(e)]. *)
Record exn := Exn { exn_type : pyclass; exn_str : pystr }.

Definition isinstance (e : exn) (c : pyclass) : bool :=
  issubclass (exn_type e) c.

(** ** The outside world and the trace *)

Inductive role := system | human.

(** [SystemMessage(content=...)] and [HumanMessage(content=...)] *)
Record message := Message { msg_role : role; msg_content : pystr }.

Definition SystemMessage (content : pystr) : message := Message system content.
Definition HumanMessage (content : pystr) : message := Message human content.

(** What [ChatOpenAI(api_key, model, temperature).invoke(messages)] sends. *)
Record request := Request {
  req_api_key : pystr;
  req_model : pystr;
  req_temperature : float;
  req_messages : list message
}.

(** The object [invoke] returns: its [content] attribute when it has one,
    and the text [str()] gives for the whole object. *)
Record reply := Reply { reply_content : option pyval; reply_str : pystr }.

Inductive outcome (A : Type) :=
  | Returns (a : A)
  | Raises (e : exn).
Arguments Returns {A} a.
Arguments Raises {A} e.

Inductive event :=
  | EvSecretsGet (name : pystr)
  | EvGetenv (name : pystr)
  | EvInvoke (r : request)
  | EvWarning (text : pystr)
  | EvSpinner (text : pystr)
  | EvSuccess (text : pystr)
  | EvWrite (v : pyval)
  | EvError (text : pystr)
  | EvInfo (text : pystr).

(** What [st.secrets] finds when it is read: no secrets file, and then the
    text of the exception Streamlit raises; or the entries of
    [secrets.toml]. *)
Inductive secret_store :=
  | NoSecretsFile (message : pystr)
  | SecretsFile (entries : gmap pystr pystr).

(** The secret store, the process environment (after [load_dotenv]) and
    the remote model, which answers a request or raises. *)
Record world := World {
  secrets : secret_store;
  environ : gmap pystr pystr;
  llm_invoke : request -> outcome reply
}.

(** Reading [st.secrets] parses the secrets file, and parsing copies every
    entry into [os.environ], over the value a variable of that name had. *)
Definition parse_secrets (w : world) : world :=
  match secrets w with
  | NoSecretsFile _ => w
  | SecretsFile entries =>
      World (secrets w) (entries ∪ environ w) (llm_invoke w)
  end.

(** What an event leaves behind in the world. *)
Definition effect (w : world) (ev : event) : world :=
  match ev with
  | EvSecretsGet _ => parse_secrets w
  | _ => w
  end.

(** The world after the events of a trace. *)
Definition after (t : list event) (w : world) : world := fold_left effect t w.

(** ** Computations: read the world, log events, return or raise

    A computation starts in a world and gives its trace and its outcome;
    what follows it runs in the world [after] that trace. *)

Definition M (A : Type) : Type := world -> list event * outcome A.

Definition ret {A} (a : A) : M A := fun _ => ([], Returns a).

Definition raise {A} (e : exn) : M A := fun _ => ([], Raises e).

Definition bind {A B} (m : M A) (k : A -> M B) : M B := fun w =>
  match m w with
  | (t, Returns a) => let '(t', o) := k a (after t w) in (t ++ t', o)
  | (t, Raises e) => (t, Raises e)
  end.

Definition emit (ev : event) : M unit := fun _ => ([ev], Returns tt).

Declare Scope py_scope.
Delimit Scope py_scope with py.
Notation "x <- m ;; k" := (bind m (fun x => k))
  (at level 100, m at next level, right associativity) : py_scope.
Notation "m ;; k" := (bind m (fun _ => k))
  (at level 100, right associativity) : py_scope.

Definition trace_of {A} (m : M A) (w : world) : list event := fst (m w).
Definition outcome_of {A} (m : M A) (w : world) : outcome A := snd (m w).

(** [try: body  except C1 as e: h1  except C2 as e: h2 ...]: the clauses
    are tried in order, and an exception no clause matches goes on. *)
Fixpoint dispatch {A} (clauses : list (pyclass * (exn -> M A))) (e : exn) : M A :=
  match clauses with
  | [] => raise e
  | (c, h) :: rest => if isinstance e c then h e else dispatch rest e
  end.

Definition try_except {A} (body : M A) (clauses : list (pyclass * (exn -> M A)))
  : M A := fun w =>
  match body w with
  | (t, Returns a) => (t, Returns a)
  | (t, Raises e) =>
      let '(t', o) := dispatch clauses e (after t w) in (t ++ t', o)
  end.

(** [st.secrets.get(name, None)] *)
Definition st_secrets_get (name : pystr) : M (option pystr) := fun w =>
  match secrets w with
  | NoSecretsFile message =>
      ([EvSecretsGet name],
       Raises (Exn StreamlitSecretNotFoundError message))
  | SecretsFile entries => ([EvSecretsGet name], Returns (entries !! name))
  end.

(** The entry of a name in the secret store; none when there is no
    secrets file. *)
Definition secret_entry (w : world) (name : pystr) : option pystr :=
  match secrets w with
  | NoSecretsFile _ => None
  | SecretsFile entries => entries !! name
  end.

(** [os.getenv(name)] *)
Definition os_getenv (name : pystr) : M (option pystr) := fun w =>
  ([EvGetenv name], Returns (environ w !! name)).

(** [ChatOpenAI(...).invoke(messages)]: the one network call. *)
Definition invoke (r : request) : M reply := fun w =>
  ([EvInvoke r], llm_invoke w r).

(** [d[k]] on a dict; a missing key raises [KeyError], shown as the key
    between quotes. *)
Definition dict_getitem (d : gmap pystr pystr) (k : pystr) : M pystr :=
  match d !! k with
  | Some v => ret v
  | None => raise (Exn KeyError (utf8 "'" ++ k ++ utf8 "'"))
  end.

(** [k in d] *)
Definition dict_contains (d : gmap pystr pystr) (k : pystr) : bool :=
  match d !! k with
  | Some _ => true
  | None => false
  end.

(** ** The program *)

Local Open Scope py_scope.

Definition OPENAI_API_KEY : pystr := utf8 "OPENAI_API_KEY".

Definition get_api_key : M (option pystr) :=
  key <- st_secrets_get OPENAI_API_KEY ;;
  if negb (py_truthy key) then os_getenv OPENAI_API_KEY else ret key.

Definition persona_A : pystr := utf8 "A".
Definition persona_B : pystr := utf8 "B".

Definition COOKING_PROMPT : pystr :=
  utf8 "あなたは料理の専門家です。ユーザーの条件に具体的で再現性の高いレシピと調理のアドバイスをしてください。".

Definition FINANCE_PROMPT : pystr :=
  utf8 "あなたは経済/投資の専門家です。ユーザーの質問に対して具体的で実務的なアドバイスをしてください。".

Definition SYSTEM_PROMPTS : gmap pystr pystr :=
  <[persona_A := COOKING_PROMPT]> (<[persona_B := FINANCE_PROMPT]> ∅).

Definition INVALID_CHOICE_MSG : pystr :=
  utf8 "expert_choice は 'A' または 'B' を指定してください。".

Definition MISSING_KEY_MSG : pystr :=
  utf8 "OPENAI_API_KEY が見つかりません。ローカルでは .env に "
  ++ utf8 "OPENAI_API_KEY=... を記載、Streamlit Cloud では Secrets に設定してください。".

Definition MODEL : pystr := utf8 "gpt-4o-mini".

(** [result.content if hasattr(result, "content") else str(result)] *)
Definition reply_text (result : reply) : pyval :=
  match reply_content result with
  | Some c => c
  | None => VStr (reply_str result)
  end.

Definition ask_expert (input_text expert_choice : pystr) (temperature : float)
  : M pyval :=
  if negb (dict_contains SYSTEM_PROMPTS expert_choice) then
    raise (Exn ValueError INVALID_CHOICE_MSG)
  else
    api_key <- get_api_key ;;
    match api_key with
    | Some ((_ :: _) as key) =>
      prompt <- dict_getitem SYSTEM_PROMPTS expert_choice ;;
      let messages := [SystemMessage prompt; HumanMessage input_text] in
      result <- invoke (Request key MODEL temperature messages) ;;
      ret (reply_text result)
    | _ => raise (Exn RuntimeError MISSING_KEY_MSG)
    end.

(** The default of the [temperature] parameter, the binary64 number the
    literal [0.2] denotes. *)
Definition default_temperature : float := 0x1.999999999999ap-3%float.

Definition WARNING_MSG : pystr := utf8 "質問内容を入力してください。".
Definition SPINNER_MSG : pystr := utf8 "考えています...".
Definition SUCCESS_MSG : pystr := utf8 "回答".

Definition REMEDIATION_HINT : pystr :=
  utf8 "ローカル開発: プロジェクト直下に `.env` を作成して `OPENAI_API_KEY=...` を入れてください。"
  ++ [10]
  ++ utf8 "Streamlit Cloud: App settings → Secrets に `OPENAI_API_KEY` を設定してください。".

(** [f"エラーが発生しました: {type(e).__name__}: {e}"] *)
Definition generic_error_text (e : exn) : pystr :=
  utf8 "エラーが発生しました: " ++ class_name (exn_type e) ++ utf8 ": " ++ exn_str e.

(** The body of [if submitted:]. *)
Definition on_submit (user_input expert_choice : pystr) (temperature : float)
  : M unit :=
  try_except
    (if negb (str_truthy (py_strip user_input)) then
       emit (EvWarning WARNING_MSG)
     else
       emit (EvSpinner SPINNER_MSG) ;;
       answer <- ask_expert user_input expert_choice temperature ;;
       emit (EvSuccess SUCCESS_MSG) ;;
       emit (EvWrite answer))
    [ (RuntimeError, fun e =>
         emit (EvError (exn_str e)) ;; emit (EvInfo REMEDIATION_HINT));
      (PyException, fun e => emit (EvError (generic_error_text e))) ].

(** One run of the script after the form is drawn. *)
Definition page (submitted : bool) (user_input expert_choice : pystr)
    (temperature : float) : M unit :=
  if submitted then on_submit user_input expert_choice temperature else ret tt.

(** ** Reading traces *)

(** The requests sent over the network, in order. *)
Definition network_calls (t : list event) : list request :=
  omap (fun ev => match ev with EvInvoke r => Some r | _ => None end) t.

(** The credential lookups made, in order. *)
Definition is_credential_lookup (ev : event) : bool :=
  match ev with
  | EvSecretsGet _ | EvGetenv _ => true
  | _ => false
  end.

Definition credential_lookups (t : list event) : list event :=
  List.filter is_credential_lookup t.

Definition outcome_map {A B} (f : A -> B) (o : outcome A) : outcome B :=
  match o with
  | Returns a => Returns (f a)
  | Raises e => Raises e
  end.

(** ** Sample worlds *)

Definition sample_key : pystr := utf8 "sk-test".

Definition sample_answer : reply :=
  Reply (Some (VStr (utf8 "Tteriyaki chicken recipe...")))
        (utf8 "content='Tteriyaki chicken recipe...'").

(** A remote model that always answers [r], and one that always raises [e]. *)
Definition answering (r : reply) : request -> outcome reply :=
  fun _ => Returns r.
Definition failing (e : exn) : request -> outcome reply :=
  fun _ => Raises e.

(** A secrets file without the key, and no environment variable. *)
Definition world_without_key : world :=
  World (SecretsFile ∅) ∅ (answering sample_answer).

(** A secrets file without the key, and [OPENAI_API_KEY=] (set, but
    empty) in the environment. *)
Definition world_empty_env_var : world :=
  World (SecretsFile ∅) (<[OPENAI_API_KEY := []]> ∅) (answering sample_answer).

(** The key is in the secrets file only. *)
Definition world_with_secret (remote : request -> outcome reply) : world :=
  World (SecretsFile (<[OPENAI_API_KEY := sample_key]> ∅)) ∅ remote.

(** A secrets file without the key, and the key in the environment. *)
Definition world_with_env (remote : request -> outcome reply) : world :=
  World (SecretsFile ∅) (<[OPENAI_API_KEY := sample_key]> ∅) remote.

(** The text Streamlit gives when it finds no secrets file. *)
Definition no_secrets_message : pystr :=
  utf8 "No secrets found. Valid paths for a secrets.toml file or secret directories are: /app/.streamlit/secrets.toml".

(** No secrets file; the key is in the environment, as after [load_dotenv]
    read it from [.env]. *)
Definition world_dotenv_only (remote : request -> outcome reply) : world :=
  World (NoSecretsFile no_secrets_message)
        (<[OPENAI_API_KEY := sample_key]> ∅) remote.

(** A secrets file where the key is empty, and the key in the
    environment. *)
Definition world_empty_secret (remote : request -> outcome reply) : world :=
  World (SecretsFile (<[OPENAI_API_KEY := []]> ∅))
        (<[OPENAI_API_KEY := sample_key]> ∅) remote.

(** A reply without a [content] attribute whose [str()] is empty, as the
    empty string itself is. *)
Definition empty_reply : reply := Reply None [].

(** A [RuntimeError] raised below [invoke]. *)
Definition closed_client_error : exn :=
  Exn RuntimeError (utf8 "Cannot send a request, as the client has been closed.").

(** ** The form and the start of the script *)

(** The [options] of the persona [st.selectbox]: a tag and its label. *)
Definition PERSONA_OPTIONS : list (pystr * pystr) :=
  [ (utf8 "A", utf8 "料理の専門家"); (utf8 "B", utf8 "経済/投資の専門家") ].

(** [format_func=lambda x: x[1]]: the text shown for an option. *)
Definition format_func (x : pystr * pystr) : pystr := snd x.

(** [st.selectbox(...)[0]]: the tag of the option the select box gives. *)
Definition option_tag (x : pystr * pystr) : pystr := fst x.

(** The events a visitor sees: everything but the lookups and the remote
    call. *)
Definition is_ui_event (ev : event) : bool :=
  match ev with
  | EvSecretsGet _ | EvGetenv _ | EvInvoke _ => false
  | _ => true
  end.

Definition ui_events (t : list event) : list event :=
  List.filter is_ui_event t.

Definition ImportError : pyclass := Subclass (utf8 "ImportError") PyException.
Definition ModuleNotFoundError : pyclass :=
  Subclass (utf8 "ModuleNotFoundError") ImportError.

(** [load_dotenv()] as the script uses it: it turns the environment into a
    new one and may raise after doing so.  Its result is dropped. *)
Definition loader : Type :=
  gmap pystr pystr -> gmap pystr pystr * option exn.

(** [from dotenv import load_dotenv], with the package installed
    ([Some load]) or not ([None]). *)
Definition import_load_dotenv (pkg : option loader) : outcome loader :=
  match pkg with
  | Some load => Returns load
  | None => Raises (Exn ModuleNotFoundError (utf8 "No module named 'dotenv'"))
  end.

(** The first lines of the script: the import and call at the top, then
    the same two statements again inside [try: ... except Exception: pass].
    The result is the environment the rest of the script sees and the
    exception that stopped the script, if one did. *)
Definition startup (pkg : option loader) (env : gmap pystr pystr)
  : gmap pystr pystr * option exn :=
  match import_load_dotenv pkg with
  | Raises e => (env, Some e)
  | Returns load =>
    match load env with
    | (env1, Some e) => (env1, Some e)
    | (env1, None) =>
      match import_load_dotenv pkg with
      | Raises e =>
        if isinstance e PyException then (env1, None) else (env1, Some e)
      | Returns load' =>
        match load' env1 with
        | (env2, None) => (env2, None)
        | (env2, Some e) =>
          if isinstance e PyException then (env2, None) else (env2, Some e)
        end
      end
    end
  end.

(** A [.env] file read the way [load_dotenv()] does by default: variables
    already set keep their value. *)
Definition sample_loader (file : gmap pystr pystr) : loader :=
  fun env => (env ∪ file, None).

(** ** Facts about strings *)

Lemma py_lstrip_blank (s : pystr) :
  forallb py_isspace s = true -> py_lstrip s = [].
Proof.
  induction s as [|c r IH]; simpl; [done|].
  intros [Hc Hr]%andb_prop. rewrite Hc. auto.
Qed.

Lemma py_lstrip_nil_blank (s : pystr) :
  py_lstrip s = [] -> forallb py_isspace s = true.
Proof.
  induction s as [|c r IH]; simpl; [done|].
  destruct (py_isspace c); [auto | discriminate].
Qed.

Lemma py_lstrip_head (s : pystr) c r :
  py_lstrip s = c :: r -> py_isspace c = false.
Proof.
  induction s as [|d s' IH]; simpl; [discriminate|].
  destruct (py_isspace d) eqn:Hd; [auto|].
  intros [= -> _]. exact Hd.
Qed.

Lemma py_strip_blank (s : pystr) :
  forallb py_isspace s = true -> py_strip s = [].
Proof.
  intros H. unfold py_strip, py_rstrip.
  rewrite (py_lstrip_blank s H). reflexivity.
Qed.

Lemma py_strip_nil_blank (s : pystr) :
  py_strip s = [] -> forallb py_isspace s = true.
Proof.
  unfold py_strip, py_rstrip. intros H.
  apply py_lstrip_nil_blank.
  destruct (py_lstrip s) as [|c r] eqn:E; [done|].
  apply (f_equal (@rev N)) in H. rewrite rev_involutive in H. simpl in H.
  apply py_lstrip_nil_blank in H.
  rewrite forallb_app in H. simpl in H.
  rewrite (py_lstrip_head _ _ _ E) in H.
  rewrite andb_false_r in H. discriminate.
Qed.

(** The guard [not user_input.strip()] holds exactly for blank text. *)
Lemma blank_guard (s : pystr) :
  negb (str_truthy (py_strip s)) = forallb py_isspace s.
Proof.
  destruct (forallb py_isspace s) eqn:E.
  - rewrite (py_strip_blank s E). reflexivity.
  - destruct (py_strip s) eqn:F; [|reflexivity].
    apply py_strip_nil_blank in F. congruence.
Qed.

(** ** Facts about the persona table *)

Lemma SYSTEM_PROMPTS_lookup (choice : pystr) :
  SYSTEM_PROMPTS !! choice =
    if decide (persona_A = choice) then Some COOKING_PROMPT
    else if decide (persona_B = choice) then Some FINANCE_PROMPT
    else None.
Proof.
  unfold SYSTEM_PROMPTS. rewrite !lookup_insert, lookup_empty. reflexivity.
Qed.

Lemma SYSTEM_PROMPTS_A : SYSTEM_PROMPTS !! persona_A = Some COOKING_PROMPT.
Proof. rewrite SYSTEM_PROMPTS_lookup. by rewrite decide_True. Qed.

Lemma SYSTEM_PROMPTS_B : SYSTEM_PROMPTS !! persona_B = Some FINANCE_PROMPT.
Proof.
  rewrite SYSTEM_PROMPTS_lookup.
  rewrite decide_False by (vm_compute; discriminate).
  by rewrite decide_True.
Qed.

Lemma SYSTEM_PROMPTS_other (choice : pystr) :
  choice <> persona_A -> choice <> persona_B -> SYSTEM_PROMPTS !! choice = None.
Proof.
  intros HA HB. rewrite SYSTEM_PROMPTS_lookup.
  rewrite !decide_False by congruence. reflexivity.
Qed.

(** ** Running the two functions *)

(** The remote model and the secret store are the same after any trace. *)
Lemma llm_invoke_after (t : list event) (w : world) :
  llm_invoke (after t w) = llm_invoke w.
Proof.
  revert w. induction t as [|ev t IH]; intros w; [reflexivity|].
  unfold after in *. simpl. rewrite IH.
  destruct ev; try reflexivity.
  simpl. unfold parse_secrets. destruct (secrets w) eqn:E; simpl; congruence.
Qed.

Lemma secrets_after (t : list event) (w : world) :
  secrets (after t w) = secrets w.
Proof.
  revert w. induction t as [|ev t IH]; intros w; [reflexivity|].
  unfold after in *. simpl. rewrite IH.
  destruct ev; try reflexivity.
  simpl. unfold parse_secrets. destruct (secrets w) eqn:E; simpl; congruence.
Qed.

Lemma get_api_key_run (w : world) :
  get_api_key w =
    match secrets w with
    | NoSecretsFile message =>
        ([EvSecretsGet OPENAI_API_KEY],
         Raises (Exn StreamlitSecretNotFoundError message))
    | SecretsFile entries =>
        if py_truthy (entries !! OPENAI_API_KEY)
        then ([EvSecretsGet OPENAI_API_KEY],
              Returns (entries !! OPENAI_API_KEY))
        else ([EvSecretsGet OPENAI_API_KEY; EvGetenv OPENAI_API_KEY],
              Returns ((entries ∪ environ w) !! OPENAI_API_KEY))
    end.
Proof.
  unfold get_api_key, bind, st_secrets_get.
  destruct (secrets w) as [message|entries] eqn:Hs; [reflexivity|].
  destruct (py_truthy (entries !! OPENAI_API_KEY)); [reflexivity|].
  unfold os_getenv, after. simpl. unfold parse_secrets. rewrite Hs.
  reflexivity.
Qed.

(** When the secrets file has no entry for a name, the variable of that
    name is as it was; when it has one, the variable holds it. *)
Lemma lookup_parsed (entries env : gmap pystr pystr) (name : pystr) :
  (entries ∪ env) !! name =
    match entries !! name with
    | Some v => Some v
    | None => env !! name
    end.
Proof.
  rewrite lookup_union. destruct (entries !! name), (env !! name); reflexivity.
Qed.

Lemma get_api_key_no_network (w : world) :
  network_calls (trace_of get_api_key w) = [].
Proof.
  unfold trace_of. rewrite get_api_key_run.
  destruct (secrets w); [reflexivity|]. destruct (py_truthy _); reflexivity.
Qed.

Lemma network_calls_app (t1 t2 : list event) :
  network_calls (t1 ++ t2) = network_calls t1 ++ network_calls t2.
Proof. apply omap_app. Qed.

(** With a persona of the table, [ask_expert] follows the credential. *)
Lemma ask_expert_valid (w : world) (text choice prompt : pystr) (temp : float) :
  SYSTEM_PROMPTS !! choice = Some prompt ->
  ask_expert text choice temp w =
    match get_api_key w with
    | (t, Returns (Some ((_ :: _) as key))) =>
        let r := Request key MODEL temp
                   [SystemMessage prompt; HumanMessage text] in
        (t ++ [EvInvoke r], outcome_map reply_text (llm_invoke w r))
    | (t, Returns _) => (t, Raises (Exn RuntimeError MISSING_KEY_MSG))
    | (t, Raises e) => (t, Raises e)
    end.
Proof.
  intros Hp. unfold ask_expert, dict_contains, dict_getitem. rewrite Hp. simpl.
  unfold bind at 1.
  destruct (get_api_key w) as [t [[[|c k]|]|e]];
    unfold bind, ret, raise, invoke; simpl; rewrite ?app_nil_r;
    try reflexivity.
  change (after [] (after t w)) with (after t w). rewrite llm_invoke_after.
  match goal with
  | |- context [llm_invoke w ?r] => destruct (llm_invoke w r)
  end; simpl; rewrite ?app_nil_r; reflexivity.
Qed.

Lemma ask_expert_resolved (w : world) (text choice prompt key : pystr)
    (temp : float) :
  SYSTEM_PROMPTS !! choice = Some prompt ->
  outcome_of get_api_key w = Returns (Some key) ->
  str_truthy key = true ->
  let r := Request key MODEL temp [SystemMessage prompt; HumanMessage text] in
  ask_expert text choice temp w =
    (trace_of get_api_key w ++ [EvInvoke r],
     outcome_map reply_text (llm_invoke w r)).
Proof.
  intros Hp Hk Hne. rewrite (ask_expert_valid w text choice prompt temp Hp).
  unfold outcome_of, trace_of in *.
  destruct (get_api_key w) as [t o]. simpl in *. subst o.
  destruct key; [discriminate | reflexivity].
Qed.

(** The same, read off the trace: one request, and the remote outcome. *)
Lemma ask_expert_resolved_call (w : world) (text choice prompt key : pystr)
    (temp : float) :
  SYSTEM_PROMPTS !! choice = Some prompt ->
  outcome_of get_api_key w = Returns (Some key) ->
  str_truthy key = true ->
  network_calls (trace_of (ask_expert text choice temp) w) =
    [Request key MODEL temp [SystemMessage prompt; HumanMessage text]] /\
  outcome_of (ask_expert text choice temp) w =
    outcome_map reply_text
      (llm_invoke w
         (Request key MODEL temp [SystemMessage prompt; HumanMessage text])).
Proof.
  intros Hp Hk Hne.
  pose proof (ask_expert_resolved w text choice prompt key temp Hp Hk Hne)
    as Hrun.
  pose proof (get_api_key_no_network w) as Hnone.
  unfold trace_of, outcome_of in *. simpl in Hrun. rewrite Hrun. simpl.
  rewrite network_calls_app, Hnone. split; reflexivity.
Qed.

Lemma valid_persona_prompt (choice : pystr) :
  choice = persona_A \/ choice = persona_B ->
  exists prompt, SYSTEM_PROMPTS !! choice = Some prompt.
Proof.
  intros [->| ->]; eexists; [apply SYSTEM_PROMPTS_A | apply SYSTEM_PROMPTS_B].
Qed.

(** ** The script on sample inputs *)

Example py_strip_example :
  py_strip ([0x20; 0x3000] ++ utf8 "a b" ++ [0x0A; 0x20]) = utf8 "a b".
Proof. vm_compute. reflexivity. Qed.

Example issubclass_example :
  issubclass KeyError PyException = true /\
  issubclass KeyError RuntimeError = false /\
  issubclass PyException RuntimeError = false.
Proof. vm_compute. auto. Qed.

Example get_api_key_prefers_secret :
  get_api_key (World (SecretsFile (<[OPENAI_API_KEY := utf8 "from-secrets"]> ∅))
                     (<[OPENAI_API_KEY := utf8 "from-env"]> ∅)
                     (answering sample_answer)) =
    ([EvSecretsGet OPENAI_API_KEY], Returns (Some (utf8 "from-secrets"))).
Proof. vm_compute. reflexivity. Qed.

Example on_submit_success :
  on_submit (utf8 "q") persona_B 0.5%float
            (world_with_env (answering sample_answer)) =
    ([EvSpinner SPINNER_MSG;
      EvSecretsGet OPENAI_API_KEY; EvGetenv OPENAI_API_KEY;
      EvInvoke (Request sample_key MODEL 0.5%float
                  [SystemMessage FINANCE_PROMPT; HumanMessage (utf8 "q")]);
      EvSuccess SUCCESS_MSG;
      EvWrite (VStr (utf8 "Tteriyaki chicken recipe..."))],
     Returns tt).
Proof. vm_compute. reflexivity. Qed.

Example page_not_submitted :
  page false (utf8 "q") persona_A default_temperature world_without_key =
    ([], Returns tt).
Proof. reflexivity. Qed.

(** Local development with a [.env] file and no secrets file: the secret
    lookup raises before the environment is asked. *)
Example on_submit_dotenv_only :
  on_submit (utf8 "q") persona_A 0.5%float
            (world_dotenv_only (answering sample_answer)) =
    ([EvSpinner SPINNER_MSG; EvSecretsGet OPENAI_API_KEY;
      EvError (utf8 "エラーが発生しました: StreamlitSecretNotFoundError: "
               ++ no_secrets_message)],
     Returns tt).
Proof. vm_compute. reflexivity. Qed.

(** An empty secret is copied over the variable when the secrets are
    read. *)
Example get_api_key_empty_secret_example :
  get_api_key (world_empty_secret (answering sample_answer)) =
    ([EvSecretsGet OPENAI_API_KEY; EvGetenv OPENAI_API_KEY],
     Returns (Some [])).
Proof. vm_compute. reflexivity. Qed.

(** A failure that is not an [Exception] passes through the handler. *)
Example on_submit_base_exception :
  outcome_of (on_submit (utf8 "q") persona_A 0.5%float)
    (world_with_secret
       (failing (Exn (Subclass (utf8 "KeyboardInterrupt") BaseException) []))) =
    Raises (Exn (Subclass (utf8 "KeyboardInterrupt") BaseException) []).
Proof. vm_compute. reflexivity. Qed.

(** ** The credential resolver *)

(** C2 (as stated) fails: with a secrets file that has no entry for the
    key and an environment variable that is set but empty, neither source
    holds a non-empty value, yet the result is the empty string and not
    [None]. *)
Lemma get_api_key_empty_env_var :
  secret_entry world_empty_env_var OPENAI_API_KEY = None /\
  py_truthy (environ world_empty_env_var !! OPENAI_API_KEY) = false /\
  outcome_of get_api_key world_empty_env_var = Returns (Some []) /\
  outcome_of get_api_key world_empty_env_var <> Returns None.
Proof. repeat split; try reflexivity. vm_compute. discriminate. Qed.

(** C2 (amended): when the secret store can be read, [get_api_key] asks it
    first.  If it holds a non-empty value for the key, that value is
    returned and the environment is not asked.  If it has no entry for the
    key, the environment variable is asked and its value is the result,
    whatever it is: the first non-empty value when there is one, and, when
    neither source holds a non-empty value, [None] if the variable is
    unset and the empty string if it is set but empty. *)
Theorem get_api_key_precedence (w : world) (entries : gmap pystr pystr) :
  secrets w = SecretsFile entries ->
  (exists rest,
     trace_of get_api_key w = EvSecretsGet OPENAI_API_KEY :: rest) /\
  (py_truthy (entries !! OPENAI_API_KEY) = true ->
     get_api_key w =
       ([EvSecretsGet OPENAI_API_KEY], Returns (entries !! OPENAI_API_KEY))) /\
  (entries !! OPENAI_API_KEY = None ->
     get_api_key w =
       ([EvSecretsGet OPENAI_API_KEY; EvGetenv OPENAI_API_KEY],
        Returns (environ w !! OPENAI_API_KEY))) /\
  (entries !! OPENAI_API_KEY = None ->
   py_truthy (environ w !! OPENAI_API_KEY) = false ->
     outcome_of get_api_key w = Returns None \/
     outcome_of get_api_key w = Returns (Some [])).
Proof.
  intros Hs. unfold trace_of, outcome_of. rewrite get_api_key_run, Hs.
  rewrite lookup_parsed. repeat split.
  - destruct (py_truthy _); eauto.
  - intros ->. reflexivity.
  - intros ->. reflexivity.
  - intros -> He. simpl.
    destruct (environ w !! OPENAI_API_KEY) as [[|c k]|];
      [right | discriminate | left]; reflexivity.
Qed.

Lemma get_api_key_precedence_witness :
  secrets (world_with_secret (answering sample_answer)) =
    SecretsFile (<[OPENAI_API_KEY := sample_key]> ∅) /\
  get_api_key (world_with_secret (answering sample_answer)) =
    ([EvSecretsGet OPENAI_API_KEY], Returns (Some sample_key)) /\
  secrets (world_with_env (answering sample_answer)) = SecretsFile ∅ /\
  get_api_key (world_with_env (answering sample_answer)) =
    ([EvSecretsGet OPENAI_API_KEY; EvGetenv OPENAI_API_KEY],
     Returns (Some sample_key)).
Proof.
  split; [reflexivity|]. split.
  - exact (proj1 (proj2 (get_api_key_precedence
                           (world_with_secret (answering sample_answer))
                           _ eq_refl))
                 eq_refl).
  - split; [reflexivity|].
    exact (proj1 (proj2 (proj2 (get_api_key_precedence
                                  (world_with_env (answering sample_answer))
                                  _ eq_refl)))
                 eq_refl).
Defined.

(** ** The invoker: failures before the call *)

(** C3 (as stated) fails: with no credential in either source and a
    persona tag outside the table, [ask_expert] raises the [ValueError] of
    the persona check, not the [RuntimeError] of the missing key. *)
Lemma ask_expert_unknown_persona_without_key :
  py_truthy (secret_entry world_without_key OPENAI_API_KEY) = false /\
  py_truthy (environ world_without_key !! OPENAI_API_KEY) = false /\
  ask_expert (utf8 "q") (utf8 "C") 0.5%float world_without_key =
    ([], Raises (Exn ValueError INVALID_CHOICE_MSG)) /\
  outcome_of (ask_expert (utf8 "q") (utf8 "C") 0.5%float) world_without_key
    <> Raises (Exn RuntimeError MISSING_KEY_MSG).
Proof. repeat split; try reflexivity. vm_compute. discriminate. Qed.

(** C3 (amended): if neither the secret store nor the environment variable
    holds a non-empty value for OPENAI_API_KEY, then for every input text,
    persona and temperature no network call is attempted; and when the
    secret store can be read, for every persona of the table (A or B)
    [ask_expert] fails with the missing-configuration [RuntimeError],
    whose message mentions both configuration sources (.env and
    Secrets). *)
Theorem ask_expert_missing_key (w : world) (text choice : pystr) (temp : float) :
  py_truthy (secret_entry w OPENAI_API_KEY) = false ->
  py_truthy (environ w !! OPENAI_API_KEY) = false ->
  network_calls (trace_of (ask_expert text choice temp) w) = [] /\
  (choice = persona_A \/ choice = persona_B ->
   (exists entries, secrets w = SecretsFile entries) ->
     ask_expert text choice temp w =
       ([EvSecretsGet OPENAI_API_KEY; EvGetenv OPENAI_API_KEY],
        Raises (Exn RuntimeError MISSING_KEY_MSG))) /\
  mentions (utf8 ".env") MISSING_KEY_MSG = true /\
  mentions (utf8 "Secrets") MISSING_KEY_MSG = true.
Proof.
  unfold secret_entry. intros Hs He.
  assert (Hrun : forall prompt, SYSTEM_PROMPTS !! choice = Some prompt ->
            ask_expert text choice temp w =
              match secrets w with
              | NoSecretsFile message =>
                  ([EvSecretsGet OPENAI_API_KEY],
                   Raises (Exn StreamlitSecretNotFoundError message))
              | SecretsFile _ =>
                  ([EvSecretsGet OPENAI_API_KEY; EvGetenv OPENAI_API_KEY],
                   Raises (Exn RuntimeError MISSING_KEY_MSG))
              end).
  { intros prompt Hp. rewrite (ask_expert_valid w text choice prompt temp Hp).
    rewrite get_api_key_run.
    destruct (secrets w) as [message|entries]; [reflexivity|].
    rewrite Hs, lookup_parsed.
    destruct (entries !! OPENAI_API_KEY) as [[|c k]|];
      [reflexivity | discriminate |].
    destruct (environ w !! OPENAI_API_KEY) as [[|c k]|];
      [reflexivity | discriminate | reflexivity]. }
  split; [|split; [|split; reflexivity]].
  - unfold trace_of. destruct (SYSTEM_PROMPTS !! choice) as [prompt|] eqn:Hp.
    + rewrite (Hrun prompt eq_refl). by destruct (secrets w).
    + unfold ask_expert, dict_contains. rewrite Hp. reflexivity.
  - intros Hv [entries Hf].
    destruct (valid_persona_prompt choice Hv) as [prompt Hp].
    rewrite (Hrun prompt Hp), Hf. reflexivity.
Qed.

Lemma ask_expert_missing_key_witness :
  py_truthy (secret_entry world_empty_env_var OPENAI_API_KEY) = false /\
  py_truthy (environ world_empty_env_var !! OPENAI_API_KEY) = false /\
  (persona_B = persona_A \/ persona_B = persona_B) /\
  secrets world_empty_env_var = SecretsFile ∅ /\
  ask_expert (utf8 "q") persona_B 0.5%float world_empty_env_var =
    ([EvSecretsGet OPENAI_API_KEY; EvGetenv OPENAI_API_KEY],
     Raises (Exn RuntimeError MISSING_KEY_MSG)).
Proof.
  split; [reflexivity|]. split; [reflexivity|].
  split; [right; reflexivity|]. split; [reflexivity|].
  apply (ask_expert_missing_key world_empty_env_var (utf8 "q") persona_B
           0.5%float);
    [reflexivity | reflexivity | right; reflexivity | by eexists].
Defined.

(** C4: for every persona tag other than A and B, and every input text
    and temperature, [ask_expert] fails with a [ValueError] whose message
    tells the caller to use 'A' or 'B', and it does so before any
    credential lookup: its trace is empty. *)
Theorem ask_expert_invalid_persona (w : world) (text choice : pystr)
    (temp : float) :
  choice <> persona_A -> choice <> persona_B ->
  ask_expert text choice temp w =
    ([], Raises (Exn ValueError INVALID_CHOICE_MSG)) /\
  credential_lookups (trace_of (ask_expert text choice temp) w) = [] /\
  mentions (utf8 "'A'") INVALID_CHOICE_MSG = true /\
  mentions (utf8 "'B'") INVALID_CHOICE_MSG = true.
Proof.
  intros HA HB.
  assert (Hrun : ask_expert text choice temp w =
                   ([], Raises (Exn ValueError INVALID_CHOICE_MSG))).
  { unfold ask_expert, dict_contains.
    rewrite (SYSTEM_PROMPTS_other choice HA HB). reflexivity. }
  unfold trace_of. rewrite Hrun. repeat split; reflexivity.
Qed.

Lemma ask_expert_invalid_persona_witness :
  utf8 "C" <> persona_A /\ utf8 "C" <> persona_B /\
  ask_expert (utf8 "q") (utf8 "C") 0.5%float
             (world_with_secret (answering sample_answer)) =
    ([], Raises (Exn ValueError INVALID_CHOICE_MSG)).
Proof.
  split; [vm_compute; discriminate|]. split; [vm_compute; discriminate|].
  apply (ask_expert_invalid_persona
           (world_with_secret (answering sample_answer))
           (utf8 "q") (utf8 "C") 0.5%float);
    vm_compute; discriminate.
Defined.

(** ** The invoker: the request and the reply *)

(** C5: for every input text and every persona of the table, when a
    credential resolves, exactly one request is sent, and its message
    sequence is the system entry holding the persona's fixed instruction
    (the cooking prompt for A, the finance prompt for B) followed by the
    user entry holding the input text unchanged. *)
Theorem ask_expert_messages (w : world) (text choice key : pystr)
    (temp : float) :
  choice = persona_A \/ choice = persona_B ->
  outcome_of get_api_key w = Returns (Some key) ->
  str_truthy key = true ->
  exists r,
    network_calls (trace_of (ask_expert text choice temp) w) = [r] /\
    (choice = persona_A ->
       req_messages r =
         [Message system COOKING_PROMPT; Message human text]) /\
    (choice = persona_B ->
       req_messages r =
         [Message system FINANCE_PROMPT; Message human text]).
Proof.
  intros Hv Hk Hne.
  assert (HAB : persona_A <> persona_B) by (vm_compute; discriminate).
  destruct Hv as [-> | ->].
  - eexists. split.
    + exact (proj1 (ask_expert_resolved_call w text persona_A _ key temp
                      SYSTEM_PROMPTS_A Hk Hne)).
    + split; [reflexivity | congruence].
  - eexists. split.
    + exact (proj1 (ask_expert_resolved_call w text persona_B _ key temp
                      SYSTEM_PROMPTS_B Hk Hne)).
    + split; [congruence | reflexivity].
Qed.

Lemma ask_expert_messages_witness :
  (persona_A = persona_A \/ persona_A = persona_B) /\
  outcome_of get_api_key (world_with_env (answering sample_answer)) =
    Returns (Some sample_key) /\
  str_truthy sample_key = true /\
  exists r,
    network_calls
      (trace_of (ask_expert (utf8 "<b>鶏むね肉</b>") persona_A 0.5%float)
                (world_with_env (answering sample_answer))) = [r] /\
    (persona_A = persona_A ->
       req_messages r =
         [Message system COOKING_PROMPT;
          Message human (utf8 "<b>鶏むね肉</b>")]) /\
    (persona_A = persona_B ->
       req_messages r =
         [Message system FINANCE_PROMPT;
          Message human (utf8 "<b>鶏むね肉</b>")]).
Proof.
  split; [left; reflexivity|]. split; [reflexivity|]. split; [reflexivity|].
  apply (ask_expert_messages (world_with_env (answering sample_answer))
           (utf8 "<b>鶏むね肉</b>") persona_A sample_key 0.5%float);
    [left; reflexivity | reflexivity | reflexivity].
Defined.

(** C6 (as stated) fails: a reply without a [content] attribute whose
    string conversion is empty makes [ask_expert] return the empty
    string. *)
Lemma ask_expert_empty_reply :
  reply_content empty_reply = None /\
  outcome_of (ask_expert (utf8 "q") persona_A 0.5%float)
             (world_with_secret (answering empty_reply)) = Returns (VStr []).
Proof. split; reflexivity. Qed.

(** C6 (amended): for every remote reply, if the reply has a [content]
    attribute then [ask_expert] returns exactly that value (for a text
    field, that string); if it has none, [ask_expert] returns the string
    conversion of the whole reply, which is non-empty exactly when that
    conversion is. *)
Theorem ask_expert_reply (w : world) (text choice key : pystr) (temp : float)
    (r : request) (result : reply) :
  choice = persona_A \/ choice = persona_B ->
  outcome_of get_api_key w = Returns (Some key) ->
  str_truthy key = true ->
  network_calls (trace_of (ask_expert text choice temp) w) = [r] ->
  llm_invoke w r = Returns result ->
  (forall s, reply_content result = Some (VStr s) ->
     outcome_of (ask_expert text choice temp) w = Returns (VStr s)) /\
  (forall v, reply_content result = Some v ->
     outcome_of (ask_expert text choice temp) w = Returns v) /\
  (reply_content result = None ->
     outcome_of (ask_expert text choice temp) w =
       Returns (VStr (reply_str result))).
Proof.
  intros Hv Hk Hne Hcalls Hr.
  destruct (valid_persona_prompt choice Hv) as [prompt Hp].
  destruct (ask_expert_resolved_call w text choice prompt key temp Hp Hk Hne)
    as [Hcall Hout].
  rewrite Hcall in Hcalls. injection Hcalls as <-.
  rewrite Hout, Hr. unfold reply_text. simpl.
  repeat split.
  - intros s ->. reflexivity.
  - intros v ->. reflexivity.
  - intros ->. reflexivity.
Qed.

Lemma ask_expert_reply_witness :
  outcome_of (ask_expert (utf8 "q") persona_A 0.5%float)
             (world_with_secret (answering sample_answer)) =
    Returns (VStr (utf8 "Tteriyaki chicken recipe...")) /\
  outcome_of (ask_expert (utf8 "q") persona_B 0.5%float)
             (world_with_secret
                (answering (Reply None (utf8 "<Mock id=1>")))) =
    Returns (VStr (utf8 "<Mock id=1>")).
Proof.
  split.
  - refine (proj1 (ask_expert_reply
                     (world_with_secret (answering sample_answer))
                     (utf8 "q") persona_A sample_key 0.5%float
                     (Request sample_key MODEL 0.5%float
                        [SystemMessage COOKING_PROMPT;
                         HumanMessage (utf8 "q")])
                     sample_answer _ _ _ _ _)
                  (utf8 "Tteriyaki chicken recipe...") _);
      first [left; reflexivity | reflexivity].
  - refine (proj2 (proj2 (ask_expert_reply
                     (world_with_secret
                        (answering (Reply None (utf8 "<Mock id=1>"))))
                     (utf8 "q") persona_B sample_key 0.5%float
                     (Request sample_key MODEL 0.5%float
                        [SystemMessage FINANCE_PROMPT;
                         HumanMessage (utf8 "q")])
                     (Reply None (utf8 "<Mock id=1>")) _ _ _ _ _))
                  _);
      first [right; reflexivity | reflexivity].
Defined.

(** ** The temperature *)

(** C8: for every temperature in [0,1], a valid persona and a resolved
    credential, the request [ask_expert] sends carries that temperature
    unchanged, and the result is whatever the remote call gives; the same
    holds at the bounds 0.0 and 1.0, so neither is refused. *)
Theorem ask_expert_temperature_in_range (w : world) (text choice key : pystr)
    (temp : float) :
  (0 <=? temp)%float = true -> (temp <=? 1)%float = true ->
  choice = persona_A \/ choice = persona_B ->
  outcome_of get_api_key w = Returns (Some key) ->
  str_truthy key = true ->
  forall t, t = temp \/ t = 0%float \/ t = 1%float ->
    exists r,
      req_temperature r = t /\
      network_calls (trace_of (ask_expert text choice t) w) = [r] /\
      outcome_of (ask_expert text choice t) w =
        outcome_map reply_text (llm_invoke w r).
Proof.
  intros _ _ Hv Hk Hne t _.
  destruct (valid_persona_prompt choice Hv) as [prompt Hp].
  destruct (ask_expert_resolved_call w text choice prompt key t Hp Hk Hne)
    as [Hcall Hout].
  eexists. split; [|split; [exact Hcall | exact Hout]]. reflexivity.
Qed.

Lemma ask_expert_temperature_in_range_witness :
  (0 <=? 0.75)%float = true /\ (0.75 <=? 1)%float = true /\
  exists r,
    req_temperature r = 0.75%float /\
    network_calls
      (trace_of (ask_expert (utf8 "q") persona_B 0.75%float)
                (world_with_secret (answering sample_answer))) = [r] /\
    outcome_of (ask_expert (utf8 "q") persona_B 0.75%float)
               (world_with_secret (answering sample_answer)) =
      outcome_map reply_text
        (llm_invoke (world_with_secret (answering sample_answer)) r).
Proof.
  split; [reflexivity|]. split; [reflexivity|].
  apply (ask_expert_temperature_in_range
           (world_with_secret (answering sample_answer))
           (utf8 "q") persona_B sample_key 0.75%float);
    [reflexivity | reflexivity | right; reflexivity | reflexivity
    | reflexivity | left; reflexivity].
Defined.

(** C9: [ask_expert] does not check the range of the temperature: for
    every binary64 value (beyond 1, below 0, infinite or NaN alike), with
    a valid persona and a resolved credential, the value is the
    temperature of the one request sent, and the only way [ask_expert] can
    raise is that the remote call does. *)
Theorem ask_expert_temperature_unchecked (w : world) (text choice key : pystr)
    (temp : float) :
  choice = persona_A \/ choice = persona_B ->
  outcome_of get_api_key w = Returns (Some key) ->
  str_truthy key = true ->
  exists r,
    req_temperature r = temp /\
    network_calls (trace_of (ask_expert text choice temp) w) = [r] /\
    outcome_of (ask_expert text choice temp) w =
      outcome_map reply_text (llm_invoke w r) /\
    (forall e, outcome_of (ask_expert text choice temp) w = Raises e ->
       llm_invoke w r = Raises e).
Proof.
  intros Hv Hk Hne.
  destruct (valid_persona_prompt choice Hv) as [prompt Hp].
  destruct (ask_expert_resolved_call w text choice prompt key temp Hp Hk Hne)
    as [Hcall Hout].
  eexists. split; [|split; [exact Hcall | split; [exact Hout|]]].
  - reflexivity.
  - intros e. rewrite Hout.
    destruct (llm_invoke w _); simpl; congruence.
Qed.

Lemma ask_expert_temperature_unchecked_witness :
  (exists r,
     req_temperature r = 2.5%float /\
     network_calls
       (trace_of (ask_expert (utf8 "q") persona_A 2.5%float)
                 (world_with_secret (answering sample_answer))) = [r]) /\
  (exists r,
     req_temperature r = nan /\
     network_calls
       (trace_of (ask_expert (utf8 "q") persona_A nan)
                 (world_with_secret (answering sample_answer))) = [r]).
Proof.
  split.
  - destruct (ask_expert_temperature_unchecked
                (world_with_secret (answering sample_answer))
                (utf8 "q") persona_A sample_key 2.5%float
                (or_introl eq_refl) eq_refl eq_refl) as (r & Ht & Hc & _).
    exists r. split; assumption.
  - destruct (ask_expert_temperature_unchecked
                (world_with_secret (answering sample_answer))
                (utf8 "q") persona_A sample_key nan
                (or_introl eq_refl) eq_refl eq_refl) as (r & Ht & Hc & _).
    exists r. split; assumption.
Defined.

(** ** The submission handler *)

(** C7: for every submission whose text is empty or made of whitespace
    only, the handler draws the warning and nothing else: no credential
    lookup and no network call, and it returns normally. *)
Theorem page_blank_input (w : world) (text choice : pystr) (temp : float) :
  forallb py_isspace text = true ->
  page true text choice temp w = ([EvWarning WARNING_MSG], Returns tt) /\
  network_calls (trace_of (page true text choice temp) w) = [].
Proof.
  intros Hb.
  assert (Hrun : page true text choice temp w =
                   ([EvWarning WARNING_MSG], Returns tt)).
  { unfold page, on_submit, try_except. rewrite blank_guard, Hb. reflexivity. }
  unfold trace_of. rewrite Hrun. split; reflexivity.
Qed.

Lemma page_blank_input_witness :
  forallb py_isspace [0x20; 0x3000; 0x0A] = true /\
  page true [0x20; 0x3000; 0x0A] persona_A 0.5%float
       (world_with_secret (answering sample_answer)) =
    ([EvWarning WARNING_MSG], Returns tt) /\
  page true [] persona_A 0.5%float
       (world_with_secret (answering sample_answer)) =
    ([EvWarning WARNING_MSG], Returns tt).
Proof.
  split; [reflexivity|]. split.
  - apply (page_blank_input (world_with_secret (answering sample_answer))
             [0x20; 0x3000; 0x0A] persona_A 0.5%float). reflexivity.
  - apply (page_blank_input (world_with_secret (answering sample_answer))
             [] persona_A 0.5%float). reflexivity.
Defined.

(** C10: the blank-text guard is in the handler only.  Called directly
    with a text that is empty or all whitespace, a valid persona and a
    resolved credential, [ask_expert] still sends one request, whose user
    entry is that text unchanged, while the handler given the same text
    sends none. *)
Theorem ask_expert_blank_input (w : world) (text choice key : pystr)
    (temp : float) :
  forallb py_isspace text = true ->
  choice = persona_A \/ choice = persona_B ->
  outcome_of get_api_key w = Returns (Some key) ->
  str_truthy key = true ->
  (exists prompt,
     network_calls (trace_of (ask_expert text choice temp) w) =
       [Request key MODEL temp
          [Message system prompt; Message human text]]) /\
  network_calls (trace_of (on_submit text choice temp) w) = [].
Proof.
  intros Hb Hv Hk Hne. split.
  - destruct (valid_persona_prompt choice Hv) as [prompt Hp].
    exists prompt.
    exact (proj1 (ask_expert_resolved_call w text choice prompt key temp
                    Hp Hk Hne)).
  - unfold trace_of, on_submit, try_except. rewrite blank_guard, Hb.
    reflexivity.
Qed.

Lemma ask_expert_blank_input_witness :
  forallb py_isspace [0x3000; 0x20; 0x0A] = true /\
  (exists prompt,
     network_calls
       (trace_of (ask_expert [0x3000; 0x20; 0x0A] persona_A 0.5%float)
                 (world_with_env (answering sample_answer))) =
       [Request sample_key MODEL 0.5%float
          [Message system prompt; Message human [0x3000; 0x20; 0x0A]]]) /\
  network_calls
    (trace_of (on_submit [0x3000; 0x20; 0x0A] persona_A 0.5%float)
              (world_with_env (answering sample_answer))) = [].
Proof.
  split; [reflexivity|].
  apply (ask_expert_blank_input (world_with_env (answering sample_answer))
           [0x3000; 0x20; 0x0A] persona_A sample_key 0.5%float);
    [reflexivity | left; reflexivity | reflexivity | reflexivity].
Defined.

(** C1 (as stated) fails: a [RuntimeError] raised below the remote call,
    with the credential resolved, is not rendered with its class name; the
    handler shows its bare message followed by the API key hint. *)
Lemma on_submit_remote_runtime_error :
  outcome_of (ask_expert (utf8 "q") persona_A 0.5%float)
             (world_with_secret (failing closed_client_error)) =
    Raises closed_client_error /\
  network_calls
    (trace_of (ask_expert (utf8 "q") persona_A 0.5%float)
              (world_with_secret (failing closed_client_error))) <> [] /\
  on_submit (utf8 "q") persona_A 0.5%float
            (world_with_secret (failing closed_client_error)) =
    (EvSpinner SPINNER_MSG ::
       trace_of (ask_expert (utf8 "q") persona_A 0.5%float)
                (world_with_secret (failing closed_client_error)) ++
       [EvError (exn_str closed_client_error); EvInfo REMEDIATION_HINT],
     Returns tt) /\
  on_submit (utf8 "q") persona_A 0.5%float
            (world_with_secret (failing closed_client_error)) <>
    (EvSpinner SPINNER_MSG ::
       trace_of (ask_expert (utf8 "q") persona_A 0.5%float)
                (world_with_secret (failing closed_client_error)) ++
       [EvError (generic_error_text closed_client_error)],
     Returns tt).
Proof.
  split; [vm_compute; reflexivity|]. split; [vm_compute; discriminate|].
  split; [vm_compute; reflexivity|]. vm_compute. discriminate.
Qed.

(** C1 (amended): every failure raised during a form submission whose
    class derives from [Exception] is caught by the handler and rendered
    as a user-visible message, after which the handler returns normally.
    A failure whose class is [RuntimeError] or derives from it (the
    missing-configuration failure, and a [RuntimeError] coming out of the
    remote call alike) is rendered as its message text followed by the
    remediation hint, which names both configuration sources (.env and
    Secrets); every other failure is rendered generically, showing its
    class name and its message text. *)
Theorem on_submit_renders_failure (w : world) (text choice : pystr)
    (temp : float) :
  (forall e, outcome_of (on_submit text choice temp) w = Raises e ->
     isinstance e PyException = false) /\
  (forall e,
     forallb py_isspace text = false ->
     outcome_of (ask_expert text choice temp) w = Raises e ->
     isinstance e PyException = true ->
     on_submit text choice temp w =
       (EvSpinner SPINNER_MSG :: trace_of (ask_expert text choice temp) w ++
          (if isinstance e RuntimeError
           then [EvError (exn_str e); EvInfo REMEDIATION_HINT]
           else [EvError (utf8 "エラーが発生しました: "
                          ++ class_name (exn_type e) ++ utf8 ": "
                          ++ exn_str e)]),
        Returns tt)) /\
  isinstance (Exn RuntimeError MISSING_KEY_MSG) RuntimeError = true /\
  mentions (utf8 ".env") REMEDIATION_HINT = true /\
  mentions (utf8 "Secrets") REMEDIATION_HINT = true.
Proof.
  split; [|split; [|repeat split]].
  - intros e. unfold outcome_of, on_submit, try_except.
    rewrite blank_guard.
    destruct (forallb py_isspace text); [discriminate|].
    unfold bind at 1. simpl. unfold bind at 1.
    destruct (ask_expert text choice temp w) as [t [v|e']]; [discriminate|].
    simpl. destruct (isinstance e' RuntimeError); [discriminate|].
    destruct (isinstance e' PyException) eqn:He'; [discriminate|].
    simpl. congruence.
  - intros e Hb Hraise He. unfold on_submit, try_except.
    rewrite blank_guard, Hb. simpl.
    unfold outcome_of, trace_of in *.
    unfold bind at 1. simpl. unfold bind at 1.
    destruct (ask_expert text choice temp w) as [t o]. simpl in *. subst o.
    simpl. destruct (isinstance e RuntimeError); [reflexivity|].
    rewrite He. reflexivity.
Qed.

Lemma on_submit_renders_failure_witness :
  (forallb py_isspace (utf8 "q") = false /\
   outcome_of (ask_expert (utf8 "q") persona_A 0.5%float) world_without_key =
     Raises (Exn RuntimeError MISSING_KEY_MSG) /\
   isinstance (Exn RuntimeError MISSING_KEY_MSG) PyException = true /\
   on_submit (utf8 "q") persona_A 0.5%float world_without_key =
     ([EvSpinner SPINNER_MSG; EvSecretsGet OPENAI_API_KEY;
       EvGetenv OPENAI_API_KEY; EvError MISSING_KEY_MSG;
       EvInfo REMEDIATION_HINT],
      Returns tt)) /\
  (outcome_of (ask_expert (utf8 "q") (utf8 "C") 0.5%float) world_without_key =
     Raises (Exn ValueError INVALID_CHOICE_MSG) /\
   isinstance (Exn ValueError INVALID_CHOICE_MSG) PyException = true /\
   on_submit (utf8 "q") (utf8 "C") 0.5%float world_without_key =
     ([EvSpinner SPINNER_MSG;
       EvError (utf8 "エラーが発生しました: ValueError: " ++ INVALID_CHOICE_MSG)],
      Returns tt)).
Proof.
  assert (Hq : forallb py_isspace (utf8 "q") = false)
    by (vm_compute; reflexivity).
  assert (H1 : outcome_of (ask_expert (utf8 "q") persona_A 0.5%float)
                 world_without_key =
               Raises (Exn RuntimeError MISSING_KEY_MSG))
    by (vm_compute; reflexivity).
  assert (H2 : isinstance (Exn RuntimeError MISSING_KEY_MSG) PyException = true)
    by (vm_compute; reflexivity).
  assert (H3 : outcome_of (ask_expert (utf8 "q") (utf8 "C") 0.5%float)
                 world_without_key =
               Raises (Exn ValueError INVALID_CHOICE_MSG))
    by (vm_compute; reflexivity).
  assert (H4 : isinstance (Exn ValueError INVALID_CHOICE_MSG) PyException = true)
    by (vm_compute; reflexivity).
  split.
  - split; [exact Hq|]. split; [exact H1|]. split; [exact H2|].
    rewrite (proj1 (proj2 (on_submit_renders_failure world_without_key
                             (utf8 "q") persona_A 0.5%float))
                   (Exn RuntimeError MISSING_KEY_MSG) Hq H1 H2).
    vm_compute. reflexivity.
  - split; [exact H3|]. split; [exact H4|].
    rewrite (proj1 (proj2 (on_submit_renders_failure world_without_key
                             (utf8 "q") (utf8 "C") 0.5%float))
                   (Exn ValueError INVALID_CHOICE_MSG) Hq H3 H4).
    vm_compute. reflexivity.
Defined.

(** * Further properties of the script *)

(** ** More on strings *)

Lemma forallb_rev_true (f : N -> bool) (l : pystr) :
  forallb f l = true -> forallb f (rev l) = true.
Proof.
  rewrite !forallb_forall. intros H x Hx. apply H, in_rev, Hx.
Qed.

Lemma py_lstrip_split (s : pystr) :
  exists pre, s = pre ++ py_lstrip s /\ forallb py_isspace pre = true.
Proof.
  induction s as [|c r (pre & Hr & Hpre)]; [by exists []|].
  simpl. destruct (py_isspace c) eqn:Hc.
  - exists (c :: pre). split; [by rewrite Hr at 1|]. simpl. by rewrite Hc.
  - by exists [].
Qed.

Lemma py_rstrip_split (s : pystr) :
  exists post, s = py_rstrip s ++ post /\ forallb py_isspace post = true.
Proof.
  destruct (py_lstrip_split (rev s)) as (pre & Hs & Hpre).
  exists (rev pre). split; [|by apply forallb_rev_true].
  unfold py_rstrip. rewrite <- rev_app_distr, <- Hs. by rewrite rev_involutive.
Qed.

Lemma py_lstrip_snoc (l : pystr) (x : N) :
  py_isspace x = false -> py_lstrip (l ++ [x]) = py_lstrip l ++ [x].
Proof.
  intros Hx. induction l as [|c r IH]; simpl; [by rewrite Hx|].
  destruct (py_isspace c); [exact IH | reflexivity].
Qed.

Lemma last_rev_head (l : pystr) : last (rev l) = head l.
Proof. destruct l as [|c r]; [done|]. simpl. apply last_snoc. Qed.

(** X7: what [str.strip()] gives: the text between a whitespace prefix and a
    whitespace suffix, itself neither starting nor ending with
    whitespace. *)
Theorem py_strip_spec (s : pystr) :
  exists pre post,
    s = pre ++ py_strip s ++ post /\
    forallb py_isspace pre = true /\
    forallb py_isspace post = true /\
    from_option py_isspace false (head (py_strip s)) = false /\
    from_option py_isspace false (last (py_strip s)) = false.
Proof.
  destruct (py_lstrip_split s) as (pre & Hs & Hpre).
  destruct (py_rstrip_split (py_lstrip s)) as (post & Ht & Hpost).
  exists pre, post. unfold py_strip. repeat split; try assumption.
  - rewrite <- Ht. exact Hs.
  - destruct (py_lstrip s) as [|c r] eqn:E; [done|].
    pose proof (py_lstrip_head s c r E) as Hc.
    unfold py_rstrip. simpl. rewrite (py_lstrip_snoc _ _ Hc).
    rewrite rev_app_distr. simpl. exact Hc.
  - unfold py_rstrip. rewrite last_rev_head.
    destruct (py_lstrip (rev (py_lstrip s))) as [|c r] eqn:E; [done|].
    simpl. exact (py_lstrip_head _ c r E).
Qed.

Lemma py_startswith_app (needle rest : pystr) :
  py_startswith (needle ++ rest) needle = true.
Proof.
  induction needle as [|c n IH]; [by destruct rest|].
  simpl. by rewrite N.eqb_refl, IH.
Qed.

Lemma mentions_here (needle rest : pystr) :
  mentions needle (needle ++ rest) = true.
Proof.
  pose proof (py_startswith_app needle rest) as H.
  destruct (needle ++ rest); cbn [mentions]; by rewrite H.
Qed.

Lemma mentions_later (needle before hay : pystr) :
  mentions needle hay = true -> mentions needle (before ++ hay) = true.
Proof.
  intros H. induction before as [|c b IH]; [exact H|].
  change ((c :: b) ++ hay) with (c :: (b ++ hay)).
  cbn [mentions]. rewrite IH. apply orb_true_r.
Qed.

(** X10: the text of the generic error panel contains the class name of the
    exception and the text [str(e)] gives, whatever the exception. *)
Theorem generic_error_text_shows (e : exn) :
  mentions (class_name (exn_type e)) (generic_error_text e) = true /\
  mentions (exn_str e) (generic_error_text e) = true.
Proof.
  unfold generic_error_text. split.
  - apply mentions_later, mentions_here.
  - do 3 apply mentions_later.
    rewrite <- (app_nil_r (exn_str e)) at 2. apply mentions_here.
Qed.

(** ** Every run of the invoker *)

(** The four ways [ask_expert] can go: the persona is unknown; the secret
    lookup raises; the credential does not resolve; the request is sent. *)
Lemma ask_expert_cases (w : world) (text choice : pystr) (temp : float) :
  (SYSTEM_PROMPTS !! choice = None /\
   ask_expert text choice temp w =
     ([], Raises (Exn ValueError INVALID_CHOICE_MSG))) \/
  (is_Some (SYSTEM_PROMPTS !! choice) /\
   (exists message,
      secrets w = NoSecretsFile message /\
      ask_expert text choice temp w =
        ([EvSecretsGet OPENAI_API_KEY],
         Raises (Exn StreamlitSecretNotFoundError message)))) \/
  (is_Some (SYSTEM_PROMPTS !! choice) /\
   (exists o, outcome_of get_api_key w = Returns o /\ py_truthy o = false) /\
   ask_expert text choice temp w =
     (trace_of get_api_key w, Raises (Exn RuntimeError MISSING_KEY_MSG))) \/
  (exists prompt key,
     SYSTEM_PROMPTS !! choice = Some prompt /\
     outcome_of get_api_key w = Returns (Some key) /\
     str_truthy key = true /\
     ask_expert text choice temp w =
       (trace_of get_api_key w ++
          [EvInvoke (Request key MODEL temp
                       [SystemMessage prompt; HumanMessage text])],
        outcome_map reply_text
          (llm_invoke w (Request key MODEL temp
                           [SystemMessage prompt; HumanMessage text])))).
Proof.
  destruct (SYSTEM_PROMPTS !! choice) as [prompt|] eqn:Hp.
  - right. rewrite (ask_expert_valid w text choice prompt temp Hp).
    unfold outcome_of, trace_of.
    pose proof (get_api_key_run w) as Hrun.
    destruct (get_api_key w) as [t [[[|c k]|]|e]] eqn:Hg; simpl.
    + right; left. split; [by eexists|]. split; [|reflexivity].
      by exists (Some []).
    + right; right. exists prompt, (c :: k). repeat split.
    + right; left. split; [by eexists|]. split; [|reflexivity].
      by exists None.
    + left. split; [by eexists|].
      destruct (secrets w) as [message|entries].
      * exists message. split; [reflexivity|]. congruence.
      * destruct (py_truthy (entries !! OPENAI_API_KEY)); discriminate.
  - left. split; [reflexivity|].
    unfold ask_expert, dict_contains. rewrite Hp. reflexivity.
Qed.

Lemma get_api_key_no_ui (w : world) : ui_events (trace_of get_api_key w) = [].
Proof.
  unfold trace_of. rewrite get_api_key_run.
  destruct (secrets w); [reflexivity|]. destruct (py_truthy _); reflexivity.
Qed.

Lemma ui_events_app (t1 t2 : list event) :
  ui_events (t1 ++ t2) = ui_events t1 ++ ui_events t2.
Proof. apply List.filter_app. Qed.

(** [ask_expert] draws nothing. *)
Lemma ask_expert_no_ui (w : world) (text choice : pystr) (temp : float) :
  ui_events (trace_of (ask_expert text choice temp) w) = [].
Proof.
  unfold trace_of.
  destruct (ask_expert_cases w text choice temp)
    as [[_ ->] | [(_ & m & _ & ->) | [(_ & _ & ->)
                                     | (p & k & _ & _ & _ & ->)]]];
    cbn [fst].
  - reflexivity.
  - reflexivity.
  - apply get_api_key_no_ui.
  - rewrite ui_events_app, get_api_key_no_ui. reflexivity.
Qed.

(** [ask_expert] sends nothing, or one request. *)
Lemma ask_expert_calls (w : world) (text choice : pystr) (temp : float) :
  (length (network_calls (trace_of (ask_expert text choice temp) w)) <= 1)%nat.
Proof.
  unfold trace_of.
  destruct (ask_expert_cases w text choice temp)
    as [[_ ->] | [(_ & m & _ & ->) | [(_ & _ & ->)
                                     | (p & k & _ & _ & _ & ->)]]];
    cbn [fst].
  - simpl. lia.
  - simpl. lia.
  - rewrite get_api_key_no_network. simpl. lia.
  - rewrite network_calls_app, get_api_key_no_network. simpl. lia.
Qed.

(** The handler, case by case. *)
Lemma on_submit_run (w : world) (text choice : pystr) (temp : float) :
  on_submit text choice temp w =
    if forallb py_isspace text then ([EvWarning WARNING_MSG], Returns tt)
    else
      match ask_expert text choice temp w with
      | (t, Returns v) =>
          (EvSpinner SPINNER_MSG :: t ++ [EvSuccess SUCCESS_MSG; EvWrite v],
           Returns tt)
      | (t, Raises e) =>
          if isinstance e RuntimeError then
            (EvSpinner SPINNER_MSG :: t ++
               [EvError (exn_str e); EvInfo REMEDIATION_HINT],
             Returns tt)
          else if isinstance e PyException then
            (EvSpinner SPINNER_MSG :: t ++ [EvError (generic_error_text e)],
             Returns tt)
          else (EvSpinner SPINNER_MSG :: t, Raises e)
      end.
Proof.
  unfold on_submit, try_except. rewrite blank_guard.
  destruct (forallb py_isspace text); [reflexivity|].
  unfold bind at 1. simpl. unfold bind at 1.
  destruct (ask_expert text choice temp w) as [t [v|e]]; simpl.
  - rewrite ?app_nil_r. reflexivity.
  - destruct (isinstance e RuntimeError); [reflexivity|].
    destruct (isinstance e PyException); [reflexivity|].
    simpl. rewrite ?app_nil_r. reflexivity.
Qed.

(** X3: every request [ask_expert] sends is the only one of its run; it
    goes to the fixed model with the resolved credential, which is not
    empty, with the temperature it was given, the prompt of a persona of
    the table and the input text, and it comes after the credential
    lookups. *)
Theorem ask_expert_request_invariant (w : world) (text choice : pystr)
    (temp : float) (r : request) :
  r ∈ network_calls (trace_of (ask_expert text choice temp) w) ->
  network_calls (trace_of (ask_expert text choice temp) w) = [r] /\
  trace_of (ask_expert text choice temp) w =
    trace_of get_api_key w ++ [EvInvoke r] /\
  req_model r = MODEL /\
  outcome_of get_api_key w = Returns (Some (req_api_key r)) /\
  str_truthy (req_api_key r) = true /\
  req_temperature r = temp /\
  exists prompt,
    SYSTEM_PROMPTS !! choice = Some prompt /\
    req_messages r = [SystemMessage prompt; HumanMessage text].
Proof.
  unfold trace_of at 1 2 3.
  destruct (ask_expert_cases w text choice temp)
    as [[_ ->] | [(_ & m & _ & ->) | [(_ & _ & ->)
                                     | (p & k & Hp & Hk & Hne & ->)]]];
    cbn [fst]; intros Hr.
  - by apply elem_of_nil in Hr.
  - by apply elem_of_nil in Hr.
  - rewrite get_api_key_no_network in Hr. by apply elem_of_nil in Hr.
  - rewrite network_calls_app, get_api_key_no_network in *.
    simpl in Hr. apply list_elem_of_singleton in Hr. subst r. simpl.
    repeat split; try assumption. by exists p.
Qed.

Lemma ask_expert_request_invariant_witness :
  Request sample_key MODEL 0.5%float
    [SystemMessage COOKING_PROMPT; HumanMessage (utf8 "q")]
    ∈ network_calls
        (trace_of (ask_expert (utf8 "q") persona_A 0.5%float)
                  (world_with_env (answering sample_answer))) /\
  outcome_of get_api_key (world_with_env (answering sample_answer)) =
    Returns (Some sample_key).
Proof.
  assert (H : Request sample_key MODEL 0.5%float
                [SystemMessage COOKING_PROMPT; HumanMessage (utf8 "q")]
              ∈ network_calls
                  (trace_of (ask_expert (utf8 "q") persona_A 0.5%float)
                            (world_with_env (answering sample_answer)))).
  { vm_compute. constructor. }
  split; [exact H|].
  exact (proj1 (proj2 (proj2 (proj2
           (ask_expert_request_invariant _ _ _ _ _ H))))).
Defined.

(** X4: when [ask_expert] raises, it is for one of four reasons, and the
    trace tells which: the persona is not in the table (nothing was looked
    up); there is no secrets file, so the secret lookup raised (the
    environment was not asked); no credential resolved (nothing was sent);
    or the remote call raised that very exception.  The [KeyError] of the
    table lookup never comes out. *)
Theorem ask_expert_failure_cases (w : world) (text choice : pystr)
    (temp : float) (e : exn) :
  outcome_of (ask_expert text choice temp) w = Raises e ->
  (SYSTEM_PROMPTS !! choice = None /\
   e = Exn ValueError INVALID_CHOICE_MSG /\
   trace_of (ask_expert text choice temp) w = []) \/
  (is_Some (SYSTEM_PROMPTS !! choice) /\
   (exists message,
      secrets w = NoSecretsFile message /\
      e = Exn StreamlitSecretNotFoundError message) /\
   trace_of (ask_expert text choice temp) w =
     [EvSecretsGet OPENAI_API_KEY]) \/
  (is_Some (SYSTEM_PROMPTS !! choice) /\
   e = Exn RuntimeError MISSING_KEY_MSG /\
   network_calls (trace_of (ask_expert text choice temp) w) = []) \/
  (exists r,
     network_calls (trace_of (ask_expert text choice temp) w) = [r] /\
     llm_invoke w r = Raises e).
Proof.
  unfold outcome_of, trace_of at 1 2 3 4.
  destruct (ask_expert_cases w text choice temp)
    as [[Hp ->] | [(Hp & m & Hm & ->) | [(Hp & _ & ->)
                                        | (p & k & Hp & Hk & Hne & ->)]]];
    cbn [fst snd]; intros He.
  - left. by injection He as <-.
  - right; left. injection He as <-. split; [done|]. split; [|done].
    by exists m.
  - right; right; left. injection He as <-.
    by rewrite get_api_key_no_network.
  - right; right; right. eexists.
    rewrite network_calls_app, get_api_key_no_network.
    split; [reflexivity|].
    destruct (llm_invoke w _); simpl in He; congruence.
Qed.

Lemma ask_expert_failure_cases_witness :
  outcome_of (ask_expert (utf8 "q") persona_A 0.5%float)
             (world_with_secret (failing closed_client_error)) =
    Raises closed_client_error /\
  exists r,
    network_calls
      (trace_of (ask_expert (utf8 "q") persona_A 0.5%float)
                (world_with_secret (failing closed_client_error))) = [r] /\
    llm_invoke (world_with_secret (failing closed_client_error)) r =
      Raises closed_client_error.
Proof.
  assert (H : outcome_of (ask_expert (utf8 "q") persona_A 0.5%float)
                (world_with_secret (failing closed_client_error)) =
              Raises closed_client_error) by (vm_compute; reflexivity).
  split; [exact H|].
  destruct (ask_expert_failure_cases _ _ _ _ _ H)
    as [(Hn & _) | [(_ & (m & Hm & _) & _) | [(_ & He & _) | Hr]]].
  - vm_compute in Hn. discriminate.
  - vm_compute in Hm. discriminate.
  - vm_compute in He. discriminate.
  - exact Hr.
Defined.

(** ** Every run of the handler *)

(** X1: with a text that is not blank, a persona of the table, a resolved
    credential and a remote call that answers, the handler draws the
    spinner, looks the credential up, sends one request whose user entry
    is the text as typed (surrounding whitespace included), then draws the
    success panel and the answer, and returns. *)
Theorem on_submit_success_path (w : world) (text choice prompt key : pystr)
    (temp : float) (result : reply) :
  forallb py_isspace text = false ->
  SYSTEM_PROMPTS !! choice = Some prompt ->
  outcome_of get_api_key w = Returns (Some key) ->
  str_truthy key = true ->
  llm_invoke w (Request key MODEL temp
                  [SystemMessage prompt; HumanMessage text]) =
    Returns result ->
  on_submit text choice temp w =
    (EvSpinner SPINNER_MSG :: trace_of get_api_key w ++
       [EvInvoke (Request key MODEL temp
                    [SystemMessage prompt; HumanMessage text]);
        EvSuccess SUCCESS_MSG; EvWrite (reply_text result)],
     Returns tt).
Proof.
  intros Hb Hp Hk Hne Hr. rewrite on_submit_run, Hb.
  pose proof (ask_expert_resolved w text choice prompt key temp Hp Hk Hne)
    as Hrun.
  cbv zeta in Hrun. rewrite Hrun, Hr. simpl.
  by rewrite <- app_assoc.
Qed.

Lemma on_submit_success_path_witness :
  forallb py_isspace (utf8 "  q ") = false /\
  on_submit (utf8 "  q ") persona_A 0.5%float
            (world_with_secret (answering sample_answer)) =
    (EvSpinner SPINNER_MSG ::
       trace_of get_api_key (world_with_secret (answering sample_answer)) ++
       [EvInvoke (Request sample_key MODEL 0.5%float
                    [SystemMessage COOKING_PROMPT;
                     HumanMessage (utf8 "  q ")]);
        EvSuccess SUCCESS_MSG; EvWrite (reply_text sample_answer)],
     Returns tt).
Proof.
  split; [vm_compute; reflexivity|].
  apply (on_submit_success_path
           (world_with_secret (answering sample_answer))
           (utf8 "  q ") persona_A COOKING_PROMPT sample_key 0.5%float
           sample_answer);
    vm_compute; reflexivity.
Defined.

(** X2: one run of the page sends at most one request, whatever the
    inputs and the world, and none when the form was not submitted. *)
Theorem page_at_most_one_call (w : world) (submitted : bool)
    (text choice : pystr) (temp : float) :
  (length (network_calls (trace_of (page submitted text choice temp) w))
   <= 1)%nat /\
  (length (network_calls (trace_of (page false text choice temp) w))
   = 0)%nat.
Proof.
  split; [|reflexivity].
  destruct submitted; [|simpl; lia].
  unfold page, trace_of. rewrite on_submit_run.
  pose proof (ask_expert_calls w text choice temp) as Hc.
  unfold trace_of in Hc.
  destruct (forallb py_isspace text); [simpl; lia|].
  destruct (ask_expert text choice temp w) as [t [v|e]]; cbn [fst] in *.
  - change (EvSpinner SPINNER_MSG :: t ++ [EvSuccess SUCCESS_MSG; EvWrite v])
      with ([EvSpinner SPINNER_MSG] ++ t ++ [EvSuccess SUCCESS_MSG; EvWrite v]).
    rewrite !network_calls_app, !length_app. simpl. lia.
  - destruct (isinstance e RuntimeError); [|destruct (isinstance e PyException)];
      cbn [fst].
    + change (EvSpinner SPINNER_MSG :: ?x) with ([EvSpinner SPINNER_MSG] ++ x).
      rewrite !network_calls_app, !length_app. simpl. lia.
    + change (EvSpinner SPINNER_MSG :: ?x) with ([EvSpinner SPINNER_MSG] ++ x).
      rewrite !network_calls_app, !length_app. simpl. lia.
    + simpl. exact Hc.
Qed.

(** X5: an exception leaves the handler only when the remote call raised
    it and its class is not derived from [Exception]; the visitor has then
    seen the spinner and no panel. *)
Theorem on_submit_escape (w : world) (text choice : pystr) (temp : float)
    (e : exn) :
  outcome_of (on_submit text choice temp) w = Raises e ->
  isinstance e PyException = false /\
  ui_events (trace_of (on_submit text choice temp) w) =
    [EvSpinner SPINNER_MSG] /\
  exists r,
    network_calls (trace_of (on_submit text choice temp) w) = [r] /\
    llm_invoke w r = Raises e.
Proof.
  unfold outcome_of, trace_of. rewrite on_submit_run.
  destruct (forallb py_isspace text); [discriminate|].
  pose proof (ask_expert_cases w text choice temp) as Hcases.
  pose proof (ask_expert_no_ui w text choice temp) as Hui.
  pose proof (get_api_key_no_network w) as Hnone.
  unfold outcome_of, trace_of in Hcases, Hui, Hnone.
  destruct (ask_expert text choice temp w) as [t [v|e']]; [discriminate|].
  cbn [fst snd] in *.
  destruct (isinstance e' RuntimeError) eqn:Hrt; [discriminate|].
  destruct (isinstance e' PyException) eqn:Hex; [discriminate|].
  cbn [fst snd]. intros [= ->].
  split; [exact Hex|]. split; [simpl; by rewrite Hui|].
  destruct Hcases
    as [[_ [= _ ->]] | [(_ & m & _ & [= _ ->]) | [(_ & _ & [= _ ->])
                                                 | (p & k & _ & _ & _ & Hrun)]]].
  - vm_compute in Hex. discriminate.
  - vm_compute in Hex. discriminate.
  - vm_compute in Hrt. discriminate.
  - injection Hrun as Ht Hout. eexists. split.
    + change (network_calls (EvSpinner SPINNER_MSG :: t))
        with (network_calls t).
      rewrite Ht, network_calls_app, Hnone. reflexivity.
    + destruct (llm_invoke w _); simpl in Hout; congruence.
Qed.

Lemma on_submit_escape_witness :
  outcome_of (on_submit (utf8 "q") persona_A 0.5%float)
    (world_with_secret
       (failing (Exn (Subclass (utf8 "KeyboardInterrupt") BaseException) []))) =
    Raises (Exn (Subclass (utf8 "KeyboardInterrupt") BaseException) []) /\
  isinstance (Exn (Subclass (utf8 "KeyboardInterrupt") BaseException) [])
             PyException = false.
Proof.
  assert (H : outcome_of (on_submit (utf8 "q") persona_A 0.5%float)
                (world_with_secret
                   (failing (Exn (Subclass (utf8 "KeyboardInterrupt")
                                    BaseException) []))) =
              Raises (Exn (Subclass (utf8 "KeyboardInterrupt") BaseException)
                        [])) by (vm_compute; reflexivity).
  split; [exact H|].
  exact (proj1 (on_submit_escape _ _ _ _ _ H)).
Defined.

(** X6: the warning is drawn exactly for blank texts, and the spinner
    (the way into [ask_expert]) exactly for the others. *)
Theorem on_submit_warning_iff_blank (w : world) (text choice : pystr)
    (temp : float) :
  (EvWarning WARNING_MSG ∈ trace_of (on_submit text choice temp) w <->
   forallb py_isspace text = true) /\
  (EvSpinner SPINNER_MSG ∈ trace_of (on_submit text choice temp) w <->
   forallb py_isspace text = false).
Proof.
  assert (Hfilter : forall ev t, is_ui_event ev = true ->
            ev ∈ t -> ev ∈ ui_events t).
  { intros ev t Hev Hin. unfold ui_events.
    apply list_elem_of_In, filter_In. split; [by apply list_elem_of_In|done]. }
  pose proof (ask_expert_no_ui w text choice temp) as Hui.
  unfold trace_of in *. rewrite on_submit_run.
  destruct (forallb py_isspace text).
  - split; split; try done.
    + intros _. constructor.
    + cbn [fst]. intros H%list_elem_of_singleton. discriminate.
  - assert (Hno : forall tail,
              EvWarning WARNING_MSG ∉ tail ->
              EvWarning WARNING_MSG ∉
                EvSpinner SPINNER_MSG :: (ask_expert text choice temp w).1
                  ++ tail).
    { intros tail Htail [H|[H|H]%elem_of_app]%elem_of_cons.
      - discriminate.
      - apply (Hfilter (EvWarning WARNING_MSG) _ eq_refl) in H.
        rewrite Hui in H.
        by apply elem_of_nil in H.
      - by apply Htail. }
    split; split; try done.
    + intros H. exfalso. revert H.
      destruct (ask_expert text choice temp w) as [t [v|e]]; cbn [fst] in *.
      * apply Hno. intros [H|[H|H]%elem_of_cons]%elem_of_cons;
          [discriminate | discriminate | by apply elem_of_nil in H].
      * destruct (isinstance e RuntimeError);
          [|destruct (isinstance e PyException)]; cbn [fst].
        -- apply Hno. intros [H|[H|H]%elem_of_cons]%elem_of_cons;
             [discriminate | discriminate | by apply elem_of_nil in H].
        -- apply Hno. intros [H|H]%elem_of_cons;
             [discriminate | by apply elem_of_nil in H].
        -- rewrite <- (app_nil_r t). apply Hno. apply not_elem_of_nil.
    + intros _.
      destruct (ask_expert text choice temp w) as [t [v|e]]; cbn [fst].
      * constructor.
      * destruct (isinstance e RuntimeError);
          [|destruct (isinstance e PyException)]; constructor.
Qed.

(** X11: what the visitor sees of one submission is one of five things:
    the warning; the spinner, then the success panel and the answer; the
    spinner, then an error panel and the hint (a [RuntimeError]); the
    spinner, then the generic error panel; or the spinner alone, when an
    exception outside [Exception] goes through. *)
Theorem on_submit_panels (w : world) (text choice : pystr) (temp : float) :
  (ui_events (trace_of (on_submit text choice temp) w) =
     [EvWarning WARNING_MSG] /\
   outcome_of (on_submit text choice temp) w = Returns tt) \/
  (exists v,
     outcome_of (ask_expert text choice temp) w = Returns v /\
     ui_events (trace_of (on_submit text choice temp) w) =
       [EvSpinner SPINNER_MSG; EvSuccess SUCCESS_MSG; EvWrite v] /\
     outcome_of (on_submit text choice temp) w = Returns tt) \/
  (exists e,
     outcome_of (ask_expert text choice temp) w = Raises e /\
     isinstance e RuntimeError = true /\
     ui_events (trace_of (on_submit text choice temp) w) =
       [EvSpinner SPINNER_MSG; EvError (exn_str e); EvInfo REMEDIATION_HINT] /\
     outcome_of (on_submit text choice temp) w = Returns tt) \/
  (exists e,
     outcome_of (ask_expert text choice temp) w = Raises e /\
     isinstance e RuntimeError = false /\
     isinstance e PyException = true /\
     ui_events (trace_of (on_submit text choice temp) w) =
       [EvSpinner SPINNER_MSG; EvError (generic_error_text e)] /\
     outcome_of (on_submit text choice temp) w = Returns tt) \/
  (exists e,
     outcome_of (ask_expert text choice temp) w = Raises e /\
     isinstance e PyException = false /\
     ui_events (trace_of (on_submit text choice temp) w) =
       [EvSpinner SPINNER_MSG] /\
     outcome_of (on_submit text choice temp) w = Raises e).
Proof.
  pose proof (ask_expert_no_ui w text choice temp) as Hui.
  unfold outcome_of, trace_of in *. rewrite on_submit_run.
  destruct (forallb py_isspace text); [by left|]. right.
  destruct (ask_expert text choice temp w) as [t [v|e]]; cbn [fst snd] in *.
  - left. exists v. split; [done|].
    change (EvSpinner SPINNER_MSG :: ?x) with ([EvSpinner SPINNER_MSG] ++ x).
    rewrite !ui_events_app, Hui. by split.
  - right. destruct (isinstance e RuntimeError) eqn:Hrt;
      [|destruct (isinstance e PyException) eqn:Hex]; cbn [fst snd].
    + left. exists e. split; [done|]. split; [done|].
      change (EvSpinner SPINNER_MSG :: ?x) with ([EvSpinner SPINNER_MSG] ++ x).
      rewrite !ui_events_app, Hui. by split.
    + right; left. exists e. split; [done|]. split; [done|]. split; [done|].
      change (EvSpinner SPINNER_MSG :: ?x) with ([EvSpinner SPINNER_MSG] ++ x).
      rewrite !ui_events_app, Hui. by split.
    + right; right. exists e. split; [done|]. split; [done|].
      change (EvSpinner SPINNER_MSG :: ?x) with ([EvSpinner SPINNER_MSG] ++ x).
      rewrite !ui_events_app, Hui. by split.
Qed.

(** X12: when the secret store can be read, submitting a text that is
    not blank with a persona of the table while neither source holds a
    non-empty key shows the spinner, asks both sources, then shows the
    missing-key message and the hint; nothing is sent and the handler
    returns. *)
Theorem on_submit_missing_key (w : world) (text choice : pystr)
    (temp : float) (entries : gmap pystr pystr) :
  forallb py_isspace text = false ->
  choice = persona_A \/ choice = persona_B ->
  secrets w = SecretsFile entries ->
  py_truthy (entries !! OPENAI_API_KEY) = false ->
  py_truthy (environ w !! OPENAI_API_KEY) = false ->
  on_submit text choice temp w =
    ([EvSpinner SPINNER_MSG; EvSecretsGet OPENAI_API_KEY;
      EvGetenv OPENAI_API_KEY; EvError MISSING_KEY_MSG;
      EvInfo REMEDIATION_HINT],
     Returns tt).
Proof.
  intros Hb Hv Hf Hs He. rewrite on_submit_run, Hb.
  destruct (valid_persona_prompt choice Hv) as [prompt Hp].
  rewrite (ask_expert_valid w text choice prompt temp Hp).
  rewrite get_api_key_run, Hf, Hs, lookup_parsed.
  destruct (entries !! OPENAI_API_KEY) as [[|c k]|];
    [reflexivity | discriminate |].
  destruct (environ w !! OPENAI_API_KEY) as [[|c k]|];
    [reflexivity | discriminate | reflexivity].
Qed.

Lemma on_submit_missing_key_witness :
  forallb py_isspace (utf8 "q") = false /\
  secrets world_empty_env_var = SecretsFile ∅ /\
  py_truthy ((∅ : gmap pystr pystr) !! OPENAI_API_KEY) = false /\
  py_truthy (environ world_empty_env_var !! OPENAI_API_KEY) = false /\
  on_submit (utf8 "q") persona_B 0.5%float world_empty_env_var =
    ([EvSpinner SPINNER_MSG; EvSecretsGet OPENAI_API_KEY;
      EvGetenv OPENAI_API_KEY; EvError MISSING_KEY_MSG;
      EvInfo REMEDIATION_HINT],
     Returns tt).
Proof.
  split; [vm_compute; reflexivity|]. split; [reflexivity|].
  split; [vm_compute; reflexivity|]. split; [vm_compute; reflexivity|].
  apply (on_submit_missing_key world_empty_env_var (utf8 "q") persona_B
           0.5%float ∅);
    [vm_compute; reflexivity | right; reflexivity | reflexivity
    | vm_compute; reflexivity | vm_compute; reflexivity].
Defined.

(** X14: submitting a text that is not blank with a persona tag outside
    the table shows the spinner and then the generic error panel naming
    [ValueError]; no credential is looked up and nothing is sent. *)
Theorem on_submit_invalid_persona (w : world) (text choice : pystr)
    (temp : float) :
  forallb py_isspace text = false ->
  choice <> persona_A -> choice <> persona_B ->
  on_submit text choice temp w =
    ([EvSpinner SPINNER_MSG;
      EvError (utf8 "エラーが発生しました: " ++ utf8 "ValueError" ++ utf8 ": "
               ++ INVALID_CHOICE_MSG)],
     Returns tt).
Proof.
  intros Hb HA HB. rewrite on_submit_run, Hb.
  unfold ask_expert, dict_contains.
  rewrite (SYSTEM_PROMPTS_other choice HA HB). reflexivity.
Qed.

Lemma on_submit_invalid_persona_witness :
  forallb py_isspace (utf8 "q") = false /\
  utf8 "a" <> persona_A /\ utf8 "a" <> persona_B /\
  on_submit (utf8 "q") (utf8 "a") 0.5%float
            (world_with_secret (answering sample_answer)) =
    ([EvSpinner SPINNER_MSG;
      EvError (utf8 "エラーが発生しました: " ++ utf8 "ValueError" ++ utf8 ": "
               ++ INVALID_CHOICE_MSG)],
     Returns tt).
Proof.
  split; [vm_compute; reflexivity|].
  split; [vm_compute; discriminate|]. split; [vm_compute; discriminate|].
  apply (on_submit_invalid_persona
           (world_with_secret (answering sample_answer))
           (utf8 "q") (utf8 "a") 0.5%float);
    [vm_compute; reflexivity | vm_compute; discriminate
    | vm_compute; discriminate].
Defined.

(** ** The resolver and the rest of the configuration *)

(** X8: with no secrets file, [get_api_key] raises Streamlit's
    [StreamlitSecretNotFoundError] at the secret lookup and never asks the
    environment, whatever the variable holds; [ask_expert] with a persona
    of the table raises the same and sends nothing; and the handler shows
    the generic error panel naming that class, not the missing-key message
    and hint. *)
Theorem get_api_key_no_secrets_file (w : world) (text choice message : pystr)
    (temp : float) :
  secrets w = NoSecretsFile message ->
  get_api_key w =
    ([EvSecretsGet OPENAI_API_KEY],
     Raises (Exn StreamlitSecretNotFoundError message)) /\
  (choice = persona_A \/ choice = persona_B ->
     ask_expert text choice temp w =
       ([EvSecretsGet OPENAI_API_KEY],
        Raises (Exn StreamlitSecretNotFoundError message))) /\
  (choice = persona_A \/ choice = persona_B ->
   forallb py_isspace text = false ->
     on_submit text choice temp w =
       ([EvSpinner SPINNER_MSG; EvSecretsGet OPENAI_API_KEY;
         EvError (utf8 "エラーが発生しました: "
                  ++ utf8 "StreamlitSecretNotFoundError" ++ utf8 ": "
                  ++ message)],
        Returns tt)).
Proof.
  intros Hf.
  assert (Hget : get_api_key w =
                   ([EvSecretsGet OPENAI_API_KEY],
                    Raises (Exn StreamlitSecretNotFoundError message)))
    by (by rewrite get_api_key_run, Hf).
  assert (Hask : choice = persona_A \/ choice = persona_B ->
            ask_expert text choice temp w =
              ([EvSecretsGet OPENAI_API_KEY],
               Raises (Exn StreamlitSecretNotFoundError message))).
  { intros Hv. destruct (valid_persona_prompt choice Hv) as [prompt Hp].
    by rewrite (ask_expert_valid w text choice prompt temp Hp), Hget. }
  split; [exact Hget|]. split; [exact Hask|].
  intros Hv Hb. rewrite on_submit_run, Hb, (Hask Hv).
  assert (Hrt : isinstance (Exn StreamlitSecretNotFoundError message)
                  RuntimeError = false) by (vm_compute; reflexivity).
  assert (Hex : isinstance (Exn StreamlitSecretNotFoundError message)
                  PyException = true) by (vm_compute; reflexivity).
  rewrite Hrt, Hex. reflexivity.
Qed.

Lemma get_api_key_no_secrets_file_witness :
  secrets (world_dotenv_only (answering sample_answer)) =
    NoSecretsFile no_secrets_message /\
  environ (world_dotenv_only (answering sample_answer)) !! OPENAI_API_KEY =
    Some sample_key /\
  get_api_key (world_dotenv_only (answering sample_answer)) =
    ([EvSecretsGet OPENAI_API_KEY],
     Raises (Exn StreamlitSecretNotFoundError no_secrets_message)).
Proof.
  split; [reflexivity|]. split; [vm_compute; reflexivity|].
  exact (proj1 (get_api_key_no_secrets_file
                  (world_dotenv_only (answering sample_answer))
                  (utf8 "q") persona_A no_secrets_message 0.5%float
                  eq_refl)).
Defined.

(** X16: a secrets file whose entry for the key is empty hides the
    environment variable.  Reading the secrets copies the empty entry over
    the variable, so [get_api_key] asks the environment and gets the empty
    string, whatever the variable held, and [ask_expert] with a persona of
    the table fails with the missing-key [RuntimeError]. *)
Theorem get_api_key_empty_secret (w : world) (text choice : pystr)
    (temp : float) (entries : gmap pystr pystr) :
  secrets w = SecretsFile entries ->
  entries !! OPENAI_API_KEY = Some [] ->
  get_api_key w =
    ([EvSecretsGet OPENAI_API_KEY; EvGetenv OPENAI_API_KEY],
     Returns (Some [])) /\
  (choice = persona_A \/ choice = persona_B ->
     ask_expert text choice temp w =
       ([EvSecretsGet OPENAI_API_KEY; EvGetenv OPENAI_API_KEY],
        Raises (Exn RuntimeError MISSING_KEY_MSG))).
Proof.
  intros Hf He.
  assert (Hget : get_api_key w =
                   ([EvSecretsGet OPENAI_API_KEY; EvGetenv OPENAI_API_KEY],
                    Returns (Some [])))
    by (by rewrite get_api_key_run, Hf, lookup_parsed, He).
  split; [exact Hget|].
  intros Hv. destruct (valid_persona_prompt choice Hv) as [prompt Hp].
  by rewrite (ask_expert_valid w text choice prompt temp Hp), Hget.
Qed.

Lemma get_api_key_empty_secret_witness :
  environ (world_empty_secret (answering sample_answer)) !! OPENAI_API_KEY =
    Some sample_key /\
  get_api_key (world_empty_secret (answering sample_answer)) =
    ([EvSecretsGet OPENAI_API_KEY; EvGetenv OPENAI_API_KEY],
     Returns (Some [])).
Proof.
  split; [vm_compute; reflexivity|].
  refine (proj1 (get_api_key_empty_secret
                   (world_empty_secret (answering sample_answer))
                   (utf8 "q") persona_A 0.5%float
                   (<[OPENAI_API_KEY := []]> ∅) eq_refl _)).
  vm_compute. reflexivity.
Defined.

(** ** The form *)

(** X9: the tags the persona select box can give are exactly the keys of
    [SYSTEM_PROMPTS]; so with a tag from the form [ask_expert] always gets
    past the persona check, to the credential lookup. *)
Theorem form_persona_is_valid (w : world) (text : pystr) (temp : float) :
  (forall x, x ∈ PERSONA_OPTIONS ->
     dict_contains SYSTEM_PROMPTS (option_tag x) = true /\
     exists rest,
       trace_of (ask_expert text (option_tag x) temp) w =
         EvSecretsGet OPENAI_API_KEY :: rest) /\
  (forall tag, dict_contains SYSTEM_PROMPTS tag = true ->
     exists x, x ∈ PERSONA_OPTIONS /\ option_tag x = tag).
Proof.
  split.
  - intros x Hx.
    assert (Hv : option_tag x = persona_A \/ option_tag x = persona_B).
    { unfold PERSONA_OPTIONS in Hx.
      apply elem_of_cons in Hx as [->|Hx]; [by left|].
      apply list_elem_of_singleton in Hx as ->. by right. }
    destruct (valid_persona_prompt _ Hv) as [prompt Hp].
    split; [unfold dict_contains; by rewrite Hp|].
    unfold trace_of.
    rewrite (ask_expert_valid w text _ prompt temp Hp), get_api_key_run.
    destruct (secrets w) as [message|entries]; [by eexists|].
    destruct (py_truthy (entries !! OPENAI_API_KEY)) eqn:Hs.
    + destruct (entries !! OPENAI_API_KEY) as [[|c k]|];
        try discriminate. by eexists.
    + destruct ((entries ∪ environ w) !! OPENAI_API_KEY) as [[|c k]|];
        by eexists.
  - intros tag. unfold dict_contains. rewrite SYSTEM_PROMPTS_lookup.
    destruct (decide (persona_A = tag)) as [<-|_].
    + intros _. eexists. split; [apply list_elem_of_here|reflexivity].
    + destruct (decide (persona_B = tag)) as [<-|_]; [|discriminate].
      intros _. eexists.
      split; [apply list_elem_of_further, list_elem_of_here|reflexivity].
Qed.

Lemma form_persona_is_valid_witness :
  (utf8 "B", utf8 "経済/投資の専門家") ∈ PERSONA_OPTIONS /\
  dict_contains SYSTEM_PROMPTS
    (option_tag (utf8 "B", utf8 "経済/投資の専門家")) = true.
Proof.
  assert (H : (utf8 "B", utf8 "経済/投資の専門家") ∈ PERSONA_OPTIONS)
    by (apply list_elem_of_further, list_elem_of_here).
  split; [exact H|].
  exact (proj1 (proj1 (form_persona_is_valid world_without_key (utf8 "q")
                         0.5%float) _ H)).
Defined.

(** ** The start of the script *)

(** X13: the [try/except] around the second import does not cover the
    first one.  Without the dotenv package the script stops at its first
    line with [ModuleNotFoundError], the environment untouched; and
    whenever the start of the script is stopped by an exception derived
    from [Exception], it is that one or one the first, unguarded
    [load_dotenv()] raised. *)
Theorem startup_guard (env : gmap pystr pystr) :
  startup None env =
    (env, Some (Exn ModuleNotFoundError (utf8 "No module named 'dotenv'"))) /\
  isinstance (Exn ModuleNotFoundError (utf8 "No module named 'dotenv'"))
             PyException = true /\
  (forall pkg env' e,
     startup pkg env = (env', Some e) ->
     isinstance e PyException = true ->
     (pkg = None /\ env' = env) \/
     (exists load, pkg = Some load /\ load env = (env', Some e))).
Proof.
  split; [reflexivity|]. split; [vm_compute; reflexivity|].
  intros [load|] env' e; [|intros [= <- _] _; by left].
  unfold startup. simpl.
  destruct (load env) as [env1 [e1|]] eqn:H1.
  - intros [= -> ->] _. right. by exists load.
  - destruct (load env1) as [env2 [e2|]]; [|discriminate].
    destruct (isinstance e2 PyException) eqn:H2; [discriminate|].
    intros [= _ ->] He. congruence.
Qed.

Lemma startup_guard_witness :
  startup (Some (sample_loader (<[OPENAI_API_KEY := sample_key]> ∅)))
          (<[utf8 "PATH" := utf8 "/usr/bin"]> ∅) =
    (<[utf8 "PATH" := utf8 "/usr/bin"]> ∅ ∪ <[OPENAI_API_KEY := sample_key]> ∅
       ∪ <[OPENAI_API_KEY := sample_key]> ∅,
     None) /\
  startup None (<[utf8 "PATH" := utf8 "/usr/bin"]> ∅) =
    (<[utf8 "PATH" := utf8 "/usr/bin"]> ∅,
     Some (Exn ModuleNotFoundError (utf8 "No module named 'dotenv'"))).
Proof.
  split; [reflexivity|].
  exact (proj1 (startup_guard (<[utf8 "PATH" := utf8 "/usr/bin"]> ∅))).
Defined.

(** ** When the remote model is called *)

Lemma on_submit_calls (w : world) (text choice : pystr) (temp : float) :
  network_calls (trace_of (on_submit text choice temp) w) =
    if forallb py_isspace text then []
    else network_calls (trace_of (ask_expert text choice temp) w).
Proof.
  unfold trace_of. rewrite on_submit_run.
  destruct (forallb py_isspace text); [reflexivity|].
  destruct (ask_expert text choice temp w) as [t [v|e]]; cbn [fst].
  - change (EvSpinner SPINNER_MSG :: ?x) with ([EvSpinner SPINNER_MSG] ++ x).
    rewrite !network_calls_app. simpl. by rewrite app_nil_r.
  - destruct (isinstance e RuntimeError);
      [|destruct (isinstance e PyException)]; cbn [fst];
      change (EvSpinner SPINNER_MSG :: ?x) with ([EvSpinner SPINNER_MSG] ++ x);
      rewrite !network_calls_app; simpl; by rewrite ?app_nil_r.
Qed.

Lemma get_api_key_resolves (w : world) :
  (exists key, outcome_of get_api_key w = Returns (Some key) /\
               str_truthy key = true) <->
  exists entries,
    secrets w = SecretsFile entries /\
    (py_truthy (entries !! OPENAI_API_KEY) = true \/
     (entries !! OPENAI_API_KEY = None /\
      py_truthy (environ w !! OPENAI_API_KEY) = true)).
Proof.
  unfold outcome_of. rewrite get_api_key_run.
  destruct (secrets w) as [message|entries]; cbn [snd].
  { split; [by intros (key & ? & _) | by intros (entries & ? & _)]. }
  rewrite lookup_parsed.
  destruct (py_truthy (entries !! OPENAI_API_KEY)) eqn:Hs; cbn [snd].
  - split; [intros _; exists entries; by auto|]. intros _.
    destruct (entries !! OPENAI_API_KEY) as [[|c k]|]; try discriminate.
    by exists (c :: k).
  - split.
    + intros (key & Hk & Hne). exists entries. split; [done|]. right.
      destruct (entries !! OPENAI_API_KEY) as [[|c k]|].
      * injection Hk as <-. discriminate.
      * discriminate.
      * split; [done|]. injection Hk as ->. by destruct key.
    + intros (entries' & [= <-] & [Ht | [Hn Ht]]); [congruence|].
      rewrite Hn.
      destruct (environ w !! OPENAI_API_KEY) as [[|c k]|]; try discriminate.
      by exists (c :: k).
Qed.

(** X15: a submission reaches the remote model exactly when the text is
    not blank, the persona is in the table, the secret store can be read,
    and either it holds a non-empty key or it has no entry for the key and
    the environment variable holds a non-empty one; in every other case
    nothing is sent. *)
Theorem on_submit_calls_iff (w : world) (text choice : pystr) (temp : float) :
  ((exists r, network_calls (trace_of (on_submit text choice temp) w) = [r])
   <->
   forallb py_isspace text = false /\
   is_Some (SYSTEM_PROMPTS !! choice) /\
   exists entries,
     secrets w = SecretsFile entries /\
     (py_truthy (entries !! OPENAI_API_KEY) = true \/
      (entries !! OPENAI_API_KEY = None /\
       py_truthy (environ w !! OPENAI_API_KEY) = true))) /\
  (network_calls (trace_of (on_submit text choice temp) w) = [] \/
   exists r, network_calls (trace_of (on_submit text choice temp) w) = [r]).
Proof.
  rewrite on_submit_calls, <- get_api_key_resolves.
  destruct (forallb py_isspace text).
  { split; [|by left]. split; [by intros [r ?] | by intros [? _]]. }
  unfold trace_of.
  destruct (ask_expert_cases w text choice temp)
    as [[Hp ->] | [(Hp & m & Hm & ->) | [(Hp & (o & Ho & Hf) & ->)
                                        | (p & k & Hp & Hk & Hne & ->)]]];
    cbn [fst].
  - split; [|by left]. split; [by intros [r ?]|].
    intros (_ & [? Hs] & _). congruence.
  - split; [|by left]. split; [by intros [r ?]|].
    intros (_ & _ & Hres). apply get_api_key_resolves in Hres.
    destruct Hres as (entries & Hs & _). congruence.
  - rewrite get_api_key_no_network. split; [|by left].
    split; [by intros [r ?]|].
    intros (_ & _ & key & Hk & Hne). rewrite Ho in Hk.
    injection Hk as ->. destruct key; simpl in *; congruence.
  - rewrite network_calls_app, get_api_key_no_network. simpl.
    split; [|right; by eexists].
    split; [|by eexists]. intros _. split; [done|].
    split; [by eexists|]. by exists k.
Qed.
